(** * twine upload: a shallow embedding of [twine/commands/upload.py]

    The development follows the source file top to bottom:
    - [Str]: the few Python [str] and [os.path] operations the module uses;
    - [Wheel]: [group_wheel_files_first] and the stable sort behind
      [list.sort(key=...)];
    - [Classifier]: [skip_upload];
    - [Orchestrator]: [find_dists] and [upload], written in a small
      trace-and-exception monad over the external collaborators
      (filesystem, settings, package file, repository client). *)

From Stdlib Require Import String Ascii List ZArith Bool Lia Permutation Sorted.
From stdpp Require Import base gmap strings.
Import ListNotations.

Local Open Scope string_scope.
Local Open Scope list_scope.

(* ===================================================================== *)
(** ** Python strings *)
(* ===================================================================== *)

Module Str.

(** The double-quote character, used by the message templates. *)
Definition dquote : ascii := ascii_of_nat 34.
Definition slash : ascii := ascii_of_nat 47.

(** [s.startswith(p)] for a single prefix [p]. *)
Definition startswith (s p : string) : bool := String.prefix p s.

(** [s.startswith((p1, p2, ...))]: true when any member of the tuple is a
    prefix of [s]. *)
Definition startswith_any (s : string) (ps : list string) : bool :=
  existsb (startswith s) ps.

(** [s.endswith(suffix)]: the tail of [s] of the suffix's length is compared
    with the suffix. *)
Definition endswith (s suffix : string) : bool :=
  let n := String.length s in
  let k := String.length suffix in
  (k <=? n)%nat && String.eqb (substring (n - k) k s) suffix.

(** Truth value of a Python string: every string but the empty one. *)
Definition truthy (s : string) : bool :=
  match s with EmptyString => false | String _ _ => true end.

(** [os.path.basename] (POSIX): what follows the last slash. The
    accumulator holds the characters read since the last slash. *)
Fixpoint basename_from (acc p : string) : string :=
  match p with
  | EmptyString => acc
  | String c r =>
      if Ascii.eqb c slash then basename_from EmptyString r
      else basename_from (acc ++ String c EmptyString) r
  end.

Definition basename (p : string) : string := basename_from EmptyString p.

End Str.

(* ===================================================================== *)
(** ** Wheels first *)
(* ===================================================================== *)

Module Wheel.

(** [fname.endswith(".whl")] *)
Definition is_whl (fname : string) : bool := Str.endswith fname ".whl".

(** The sort key of the source: [lambda x: -1 if x.endswith(".whl") else 0]. *)
Definition whl_key (x : string) : Z := if is_whl x then (-1)%Z else 0%Z.

(** [list.sort(key=...)] is a stable sort on the keys. It is modelled by a
    stable insertion sort: an element is placed in front of the first
    element whose key is not smaller, so it stays in front of the equal
    keys that followed it in the input. *)
Section StableSort.
Context {A : Type} (key : A -> Z).

Fixpoint insert_by_key (x : A) (l : list A) : list A :=
  match l with
  | [] => [x]
  | y :: l' =>
      if (key x <=? key y)%Z then x :: y :: l'
      else y :: insert_by_key x l'
  end.

Fixpoint sort_by_key (l : list A) : list A :=
  match l with
  | [] => []
  | x :: l' => insert_by_key x (sort_by_key l')
  end.
End StableSort.

(** [any(fname for fname in files if fname.endswith(".whl"))]: the
    generator yields the wheel names themselves and [any] tests their truth
    value. *)
Definition any_wheel (files : list string) : bool :=
  existsb Str.truthy (List.filter is_whl files).

(** [group_wheel_files_first(files)].  The function returns the list object
    it was given; the first component tells whether [files.sort] ran on
    that object, the second is the contents of the object on return. *)
Definition group_wheel_files_first_run (files : list string)
  : bool * list string :=
  if negb (any_wheel files) then
    (* Return early if there's no wheel files *)
    (false, files)
  else
    (true, sort_by_key whl_key files).

Definition group_wheel_files_first (files : list string) : list string :=
  snd (group_wheel_files_first_run files).

Definition sort_ran (files : list string) : bool :=
  fst (group_wheel_files_first_run files).

(** The names that do not end in [.whl]. *)
Definition non_whl (fname : string) : bool := negb (is_whl fname).

(** The order [list.sort] sorts by. *)
Definition key_le {A : Type} (key : A -> Z) (x y : A) : Prop :=
  (key x <= key y)%Z.

End Wheel.

(* ===================================================================== *)
(** ** Responses and packages *)
(* ===================================================================== *)

(** What [upload] reads of a [requests] response: [status_code], [reason],
    [is_redirect] and the [headers] dictionary. *)
Record Response := {
  status_code : Z;
  reason : string;
  is_redirect : bool;
  headers : gmap string string;
}.

(** Modelled from the spec: [twine.package.PackageFile], whose source is not
    at hand.  A package holds the artifact's base filename, its expected
    signed filename, and a reference to an attached or generated signature;
    [upload] reads the two names. *)
Record PackageFile := {
  filename : string;
  basefilename : string;
  signed_basefilename : string;
  gpg_signature : option (string * string);
}.

(* ===================================================================== *)
(** ** The response classifier *)
(* ===================================================================== *)

Module Classifier.

(** ['A file named "{0}" already exists for'.format(filename)] *)
Definition msg_named (fname : string) : string :=
  "A file named " ++ String Str.dquote
    (fname ++ String Str.dquote " already exists for").

Definition msg_generic : string := "File already exists".

(** [skip_upload(response, skip_existing, package)] *)
Definition skip_upload (response : Response) (skip_existing : bool)
    (package : PackageFile) : bool :=
  let fname := basefilename package in
  let msg := [msg_named fname; msg_generic] in
  skip_existing &&
    ((status_code response =? 409)%Z ||
     ((status_code response =? 400)%Z &&
      Str.startswith_any (reason response) msg)).

End Classifier.

(* ===================================================================== *)
(** ** The orchestrator *)
(* ===================================================================== *)

Module Orchestrator.

(** Exceptions that leave [upload].  [ValueError] and [RedirectDetected] are
    raised by the module itself, [KeyError] by a dictionary subscript, and
    [Foreign] stands for whatever a collaborator raises. *)
Inductive exn :=
| ValueError (msg : string)
| RedirectDetected (msg : string)
| KeyError (key : string)
| Foreign (what : string).

(** What a collaborator call does: it raises or it returns. *)
Inductive outcome (A : Type) :=
| Raises (what : string)
| Returns (a : A).
Arguments Raises {A} what.
Arguments Returns {A} a.

(** The calls [upload] makes on the outside world, in the order made. *)
Inductive event :=
| EvExists (path : string)
| EvGlob (pattern : string)
| EvCheckRepositoryUrl
| EvPrint (line : string)
| EvCreateRepository
| EvFromFilename (fname : string) (comment : option string)
| EvPackageIsUploaded (package : PackageFile)
| EvAddGpgSignature (package : PackageFile)
    (signature_filepath signature_filename : string)
| EvSign (package : PackageFile) (sign_with : string)
    (identity : option string)
| EvUpload (package : PackageFile)
| EvCheckStatusCode (response : Response) (verbose : bool)
| EvClose.

Definition history := list event.

(** Modelled from the spec: [twine.settings.Settings], whose source is not
    at hand.  The configuration object exposes the repository URL, the
    skip-existing flag, the sign flag, the signing identity and key, the
    verbosity flag (and the comment passed on to the package). *)
Record Settings := {
  skip_existing : bool;
  sign : bool;
  sign_with : string;
  identity : option string;
  comment : option string;
  verbose : bool;
  repository_url : string;   (* repository_config['repository'] *)
}.

(** The collaborators, taken as parameters: [os.path.exists], [glob.glob],
    and the methods of the settings, of the package file and of the
    repository client that [upload] calls, together with
    [utils.check_status_code].  The filesystem is only read, so its two
    queries are functions of the path.  Every other collaborator answers as
    a function of the calls made so far: the same package may be reported
    absent now and rejected as a duplicate later. *)
Record Collaborators := {
  os_path_exists : string -> bool;
  glob_glob : string -> list string;
  check_repository_url : history -> outcome unit;
  create_repository : history -> outcome unit;
  from_filename : history -> string -> option string -> outcome PackageFile;
  package_is_uploaded : history -> PackageFile -> outcome bool;
  add_gpg_signature :
    history -> PackageFile -> string -> string -> outcome PackageFile;
  package_sign :
    history -> PackageFile -> string -> option string -> outcome PackageFile;
  repository_upload : history -> PackageFile -> outcome Response;
  check_status_code : history -> Response -> bool -> outcome unit;
  repository_close : history -> outcome unit;
}.

(** *** The monad: a log of calls, and exceptions that keep the log. *)

Definition M (A : Type) : Type := history -> (exn + A) * history.

Definition ret {A} (a : A) : M A := fun h => (inr a, h).

Definition raise {A} (e : exn) : M A := fun h => (inl e, h).

Definition bind {A B} (m : M A) (f : A -> M B) : M B :=
  fun h =>
    match m h with
    | (inl e, h') => (inl e, h')
    | (inr a, h') => f a h'
    end.

Definition lift_outcome {A} (o : outcome A) : exn + A :=
  match o with
  | Raises what => inl (Foreign what)
  | Returns a => inr a
  end.

(** A collaborator is called in the world as the calls so far left it, and
    the call is logged. *)
Definition call {A} (ev : event) (oracle : history -> outcome A) : M A :=
  fun h => (lift_outcome (oracle h), h ++ [ev]).

Definition print (line : string) : M unit :=
  call (EvPrint line) (fun _ => Returns tt).

Declare Scope twine_scope.
Delimit Scope twine_scope with twine.
Notation "x <- m ;; k" := (bind m (fun x => k))
  (at level 100, m at level 99, right associativity) : twine_scope.
Notation "m ;;; k" := (bind m (fun _ => k))
  (at level 100, right associativity) : twine_scope.
Local Open Scope twine_scope.

Section WithCollaborators.
Variable W : Collaborators.

(** ["Cannot find file (or expand pattern): '%s'" % filename] *)
Definition cannot_find (fname : string) : string :=
  "Cannot find file (or expand pattern): '" ++ fname ++ "'".

(** The [for] loop of [find_dists]; [uploads] is the list built so far. *)
Fixpoint find_dists_loop (dists uploads : list string) : M (list string) :=
  match dists with
  | [] => ret uploads
  | fname :: rest =>
      found <- call (EvExists fname)
                 (fun _ => Returns (os_path_exists W fname)) ;;
      if found then
        find_dists_loop rest (uploads ++ [fname])
      else
        (* The filename didn't exist so it may be a glob *)
        files <- call (EvGlob fname)
                   (fun _ => Returns (glob_glob W fname)) ;;
        match files with
        | [] => raise (ValueError (cannot_find fname))
        | _ :: _ => find_dists_loop rest (uploads ++ files)
        end
  end.

Definition find_dists (dists : list string) : M (list string) :=
  uploads <- find_dists_loop dists [] ;;
  ret (Wheel.group_wheel_files_first uploads).

Definition is_asc (d : string) : bool := Str.endswith d ".asc".

(** [dict((os.path.basename(d), d) for d in dists if d.endswith(".asc"))]:
    a later pair replaces an earlier one with the same key. *)
Definition signatures_of (dists : list string) : gmap string string :=
  fold_left (fun m d => <[Str.basename d := d]> m)
    (List.filter is_asc dists) ∅.

(** [[i for i in dists if not i.endswith(".asc")]] *)
Definition payloads_of (dists : list string) : list string :=
  List.filter (fun i => negb (is_asc i)) dists.

Definition skip_message (package : PackageFile) : string :=
  "  Skipping " ++ basefilename package ++
    " because it appears to already exist".

Definition redirect_message (url location : string) : string :=
  String Str.dquote
    (url ++ String Str.dquote
       (" attempted to redirect to " ++ String Str.dquote
          (location ++ String Str.dquote " during upload. Aborting..."))).

(** [resp.headers["location"]] *)
Definition header_location (resp : Response) : M string :=
  match headers resp !! "location" with
  | Some location => ret location
  | None => raise (KeyError "location")
  end.

(** The signature step of the loop body. *)
Definition attach_signature (s : Settings) (signatures : gmap string string)
    (package : PackageFile) : M PackageFile :=
  let signed_name := signed_basefilename package in
  match signatures !! signed_name with
  | Some sigfile =>
      call (EvAddGpgSignature package sigfile signed_name)
        (fun h => add_gpg_signature W h package sigfile signed_name)
  | None =>
      if sign s then
        call (EvSign package (sign_with s) (identity s))
          (fun h => package_sign W h package (sign_with s) (identity s))
      else ret package
  end.

(** The condition of the first [if] of the loop body,
    [upload_settings.skip_existing and
     repository.package_is_uploaded(package)]: the right operand is
    evaluated only when the left one is true. *)
Definition skip_existing_check (s : Settings) (package : PackageFile)
  : M bool :=
  if skip_existing s then
    call (EvPackageIsUploaded package)
      (fun h => package_is_uploaded W h package)
  else ret false.

(** The body of the [for filename in uploads] loop.  Returning is
    [continue] (or falling off the end of the body). *)
Definition upload_file (s : Settings) (signatures : gmap string string)
    (fname : string) : M unit :=
  package <- call (EvFromFilename fname (comment s))
               (fun h => from_filename W h fname (comment s)) ;;
  let skip_msg := skip_message package in
  (* Note: The skip_existing check *needs* to be first *)
  present <- skip_existing_check s package ;;
  if (present : bool) then print skip_msg
  else
    package <- attach_signature s signatures package ;;
    resp <- call (EvUpload package)
              (fun h => repository_upload W h package) ;;
    if is_redirect resp then
      location <- header_location resp ;;
      raise (RedirectDetected
               (redirect_message (repository_url s) location))
    else if Classifier.skip_upload resp (skip_existing s) package then
      print skip_msg
    else
      call (EvCheckStatusCode resp (verbose s))
        (fun h => check_status_code W h resp (verbose s)).

Fixpoint upload_loop (s : Settings) (signatures : gmap string string)
    (uploads : list string) : M unit :=
  match uploads with
  | [] => ret tt
  | fname :: rest =>
      upload_file s signatures fname ;;;
      upload_loop s signatures rest
  end.

(** [upload(upload_settings, dists)] *)
Definition upload (s : Settings) (dists : list string) : M unit :=
  dists <- find_dists dists ;;
  (* Determine if the user has passed in pre-signed distributions *)
  let signatures := signatures_of dists in
  let uploads := payloads_of dists in
  call EvCheckRepositoryUrl (check_repository_url W) ;;;
  print ("Uploading distributions to " ++ repository_url s) ;;;
  call EvCreateRepository (create_repository W) ;;;
  upload_loop s signatures uploads ;;;
  (* Bug 28. clear the connection pool. *)
  call EvClose (repository_close W).

(** Running a command from the empty log. *)
Definition run {A} (m : M A) : (exn + A) * history := m [].

End WithCollaborators.

(** *** Reading a log *)

Definition is_close (ev : event) : bool :=
  match ev with EvClose => true | _ => false end.

Definition is_package_is_uploaded (ev : event) : bool :=
  match ev with EvPackageIsUploaded _ => true | _ => false end.

Definition is_upload (ev : event) : bool :=
  match ev with EvUpload _ => true | _ => false end.

Definition is_add_gpg_signature (ev : event) : bool :=
  match ev with EvAddGpgSignature _ _ _ => true | _ => false end.

Definition is_sign (ev : event) : bool :=
  match ev with EvSign _ _ _ => true | _ => false end.

(** The filesystem queries of [find_dists]: no network is involved. *)
Definition is_fs_query (ev : event) : bool :=
  match ev with EvExists _ | EvGlob _ => true | _ => false end.

(** The calls made on the repository client. *)
Definition is_repository_call (ev : event) : bool :=
  is_package_is_uploaded ev || is_upload ev || is_close ev.

Definition is_signature_call (ev : event) : bool :=
  is_add_gpg_signature ev || is_sign ev.

Definition count (p : event -> bool) (h : history) : nat :=
  length (List.filter p h).

(** [Every phi h]: each call of the log [h] satisfies [phi], which is also
    given the calls made before it. *)
Definition Every (phi : history -> event -> Prop) (h : history) : Prop :=
  forall pre ev post, h = pre ++ ev :: post -> phi pre ev.

(** No upload so far was answered by a redirect. *)
Definition no_redirect (W : Collaborators) (pre : history) (ev : event)
  : Prop :=
  forall package resp,
    ev = EvUpload package ->
    repository_upload W pre package = Returns resp ->
    is_redirect resp = false.

Definition is_create_repository (ev : event) : bool :=
  match ev with EvCreateRepository => true | _ => false end.

Definition is_check_status_code (ev : event) : bool :=
  match ev with EvCheckStatusCode _ _ => true | _ => false end.

(** The package a signature call is made on. *)
Definition signature_call_on (ev : event) : option PackageFile :=
  match ev with
  | EvAddGpgSignature package _ _ => Some package
  | EvSign package _ _ => Some package
  | _ => None
  end.

(** A call on a signature comes right after the pre-flight query about the
    same package. *)
Definition after_preflight (pre : history) (ev : event) : Prop :=
  forall package,
    signature_call_on ev = Some package ->
    exists pre', pre = pre' ++ [EvPackageIsUploaded package].

(** [glob.glob] is only asked about names that do not exist, and only
    about names of the input. *)
Definition glob_only_missing (W : Collaborators) (dists : list string)
    (pre : history) (ev : event) : Prop :=
  forall pattern,
    ev = EvGlob pattern ->
    os_path_exists W pattern = false /\ In pattern dists.

(** What one input string contributes to the list [find_dists] builds. *)
Definition resolve_one (W : Collaborators) (fname : string) : list string :=
  if os_path_exists W fname then [fname] else glob_glob W fname.

(** A name that neither exists nor matches anything as a pattern. *)
Definition unmatched (W : Collaborators) (fname : string) : bool :=
  negb (os_path_exists W fname) &&
  match glob_glob W fname with [] => true | _ :: _ => false end.

(** The payload files of a run: what [find_dists] resolves the input to,
    less the signature files. *)
Definition resolved_payloads (W : Collaborators) (dists : list string)
  : list string :=
  match fst (find_dists W dists []) with
  | inr ds => payloads_of ds
  | inl _ => []
  end.

(** *** Properties of a result and its log *)

(** [close] on a run: called at most once, once when the run returns, not
    at all when the run is aborted by a redirect or stops at another call. *)
Definition close_post (res : exn + unit) (tr : history) : Prop :=
  count is_close tr <= 1 /\
  (res = inr tt -> count is_close tr = 1) /\
  (forall msg, res = inl (RedirectDetected msg) -> count is_close tr = 0) /\
  (forall pre ev, tr = pre ++ [ev] -> is_close ev = false ->
     count is_close tr = 0).

(** The exception a redirect ends the run with: building the message
    reads [resp.headers["location"]]. *)
Definition redirect_exn (s : Settings) (resp : Response) : exn :=
  match headers resp !! "location" with
  | Some location =>
      RedirectDetected (redirect_message (repository_url s) location)
  | None => KeyError "location"
  end.

(** A redirect on a run: an upload answered by a redirect is the last call
    and the run ends with the exception of that redirect. *)
Definition redirect_post (W : Collaborators) (s : Settings)
    (res : exn + unit) (tr : history) : Prop :=
  forall pre package post resp,
    tr = pre ++ EvUpload package :: post ->
    repository_upload W pre package = Returns resp ->
    is_redirect resp = true ->
    post = [] /\ res = inl (redirect_exn s resp).

(** The repository calls of a run of which [n] payload files are to be
    uploaded, with [skip_existing] off. *)
Definition calls_post (n : nat) (res : exn + unit) (tr : history) : Prop :=
  count is_package_is_uploaded tr = 0 /\
  count is_upload tr <= n /\
  count is_close tr <= 1 /\
  (res = inr tt -> count is_upload tr = n /\ count is_close tr = 1).

(** *** Proof steps *)

(** One case split on what the loop body inspects next: the answer of a
    collaborator, a setting, the signature map, a flag of the response. *)
Ltac body_step :=
  match goal with
  | |- context [lift_outcome ?o] => destruct o eqn:?
  | |- context [if skip_existing ?s then _ else _] =>
      destruct (skip_existing s) eqn:?
  | |- context [match ?m !! ?k with _ => _ end] => destruct (m !! k) eqn:?
  | |- context [if sign ?s then _ else _] => destruct (sign s) eqn:?
  | |- context [if ?x then _ else _] => destruct x eqn:?
  end.

Ltac body_cases :=
  unfold upload_file, skip_existing_check, attach_signature, header_location,
    print, call, bind, ret, raise;
  cbv beta; cbn [lift_outcome fst snd];
  repeat (body_step; cbv beta; cbn [lift_outcome fst snd]).

(** A call other than an upload answered by a redirect. *)
Ltac no_redirect_event :=
  let Hev := fresh "Hev" in
  let Hor := fresh "Hor" in
  intros ? ? Hev Hor;
  first [discriminate Hev | injection Hev as <-; congruence].

(** A call that is no signature call, or one that follows the pre-flight
    query. *)
Ltac after_preflight_event :=
  let Hp := fresh "Hp" in
  intros ? Hp; cbn [signature_call_on] in Hp;
  first [discriminate Hp | injection Hp as <-; eexists; reflexivity].

(** [Every phi] of a log written as [((h ++ [e1]) ++ ...) ++ [en]], by the
    rule [snoc] for one more call. *)
Ltac every_chain snoc tac :=
  repeat (apply snoc; [|solve [tac]]); assumption.

Ltac no_redirect_chain snoc := every_chain snoc ltac:(no_redirect_event).

Ltac after_preflight_chain snoc :=
  every_chain snoc ltac:(after_preflight_event).

(** The last call of an aborted pass is an upload answered by a redirect:
    the exception is the one the response calls for. *)
Ltac redirect_event :=
  let Hev := fresh "Hev" in
  let Hor := fresh "Hor" in
  intros ? ? Hev Hor ?; injection Hev as <-;
  match goal with
  | H : repository_upload _ _ _ = Returns _ |- _ =>
      rewrite H in Hor; injection Hor as <-
  end;
  unfold redirect_exn;
  match goal with
  | H : headers _ !! _ = _ |- _ => rewrite H
  end;
  reflexivity.

End Orchestrator.

(* ===================================================================== *)
(** ** A small world to run the orchestrator in *)
(* ===================================================================== *)

Module Sample.
Import Orchestrator.

Definition pkg (fname : string) : PackageFile :=
  {| filename := fname;
     basefilename := Str.basename fname;
     signed_basefilename := Str.basename fname ++ ".asc";
     gpg_signature := None |}.

Definition signed (p : PackageFile) (sig_name : string) : PackageFile :=
  {| filename := filename p;
     basefilename := basefilename p;
     signed_basefilename := signed_basefilename p;
     gpg_signature := Some (sig_name, "signature") |}.

Definition answer (code : Z) (why : string) : Response :=
  {| status_code := code; reason := why; is_redirect := false;
     headers := ∅ |}.

Definition redirect_to (location : string) : Response :=
  {| status_code := 301; reason := "Moved Permanently"; is_redirect := true;
     headers := {[ "location" := location ]} |}.

Definition success (resp : Response) : bool :=
  ((200 <=? status_code resp) && (status_code resp <? 300))%Z.

(** A world with the files [fs] on disk, where the index already holds the
    packages [present] says it holds and answers an upload by [respond]. *)
Definition world (fs : list string) (present : string -> bool)
    (respond : PackageFile -> Response) : Collaborators :=
  {| os_path_exists := fun f => existsb (String.eqb f) fs;
     glob_glob := fun pattern =>
       if String.eqb pattern "dist/*"
       then List.filter (String.prefix "dist/") fs else [];
     check_repository_url := fun _ => Returns tt;
     create_repository := fun _ => Returns tt;
     from_filename := fun _ f _ => Returns (pkg f);
     package_is_uploaded := fun _ p => Returns (present (basefilename p));
     add_gpg_signature := fun _ p _ sig_name => Returns (signed p sig_name);
     package_sign := fun _ p _ _ =>
       Returns (signed p (signed_basefilename p));
     repository_upload := fun _ p => Returns (respond p);
     check_status_code := fun _ resp _ =>
       if success resp then Returns tt else Raises "HTTPError";
     repository_close := fun _ => Returns tt |}.

Definition settings (skip sign_it : bool) : Settings :=
  {| skip_existing := skip; sign := sign_it; sign_with := "gpg";
     identity := None; comment := None; verbose := false;
     repository_url := "https://upload.pypi.org/legacy/" |}.

Definition disk : list string :=
  ["dist/pkg-1.0.tar.gz"; "dist/pkg-1.0.tar.gz.asc"; "dist/pkg-1.0.whl"].

Definition whl : string := "dist/pkg-1.0.whl".
Definition sdist : string := "dist/pkg-1.0.tar.gz".

(** The index accepts everything. *)
Definition accepting : Collaborators :=
  world disk (fun _ => false) (fun _ => answer 200 "OK").

(** The index accepts the wheel and redirects the upload of the sdist. *)
Definition redirecting : Collaborators :=
  world disk (fun _ => false)
    (fun p =>
       if String.eqb (basefilename p) "pkg-1.0.tar.gz"
       then redirect_to "https://elsewhere.example/"
       else answer 200 "OK").

(** The index already holds every package, and says so when asked. *)
Definition holding : Collaborators :=
  world disk (fun _ => true) (fun _ => answer 200 "OK").

(** The index reports nothing as present but refuses every upload as a
    duplicate. *)
Definition conflicting : Collaborators :=
  world disk (fun _ => false) (fun _ => answer 409 "Conflict").

(** The index fails on every upload. *)
Definition failing : Collaborators :=
  world disk (fun _ => false) (fun _ => answer 500 "Internal Server Error").

(** A disk with a file whose name reads as a pattern. *)
Definition odd_disk : Collaborators :=
  world ["dist/pkg[1].tar.gz"] (fun _ => false) (fun _ => answer 200 "OK").

End Sample.

(* ===================================================================== *)
(** ** More ways to read a log *)
(* ===================================================================== *)

Module Trace.
Import Orchestrator.

(** The file names [PackageFile.from_filename] was called on, in order. *)
Definition constructed (h : history) : list string :=
  flat_map
    (fun ev => match ev with EvFromFilename f _ => [f] | _ => [] end) h.

(** The filesystem queries one pass of the loop of [find_dists] makes on an
    input string. *)
Definition queries (W : Collaborators) (fname : string) : list event :=
  if os_path_exists W fname then [EvExists fname]
  else [EvExists fname; EvGlob fname].

(** What [find_dists] resolves the input to, when it returns. *)
Definition resolved (W : Collaborators) (dists : list string)
  : list string :=
  match fst (find_dists W dists []) with
  | inr ds => ds
  | inl _ => []
  end.

(** The exception a call raises, if it raises, when made after the calls
    [pre]. *)
Definition raised (W : Collaborators) (pre : history) (ev : event)
  : option string :=
  let what {A} (o : outcome A) : option string :=
    match o with Raises w => Some w | Returns _ => None end in
  match ev with
  | EvExists _ | EvGlob _ | EvPrint _ => None
  | EvCheckRepositoryUrl => what (check_repository_url W pre)
  | EvCreateRepository => what (create_repository W pre)
  | EvFromFilename f c => what (from_filename W pre f c)
  | EvPackageIsUploaded p => what (package_is_uploaded W pre p)
  | EvAddGpgSignature p sigfile name =>
      what (add_gpg_signature W pre p sigfile name)
  | EvSign p sign_with identity =>
      what (package_sign W pre p sign_with identity)
  | EvUpload p => what (repository_upload W pre p)
  | EvCheckStatusCode resp verbose =>
      what (check_status_code W pre resp verbose)
  | EvClose => what (repository_close W pre)
  end.

(** The call returned. *)
Definition returned (W : Collaborators) (pre : history) (ev : event)
  : Prop :=
  raised W pre ev = None.

(** A call that raises is the last one, and its exception is the result. *)
Definition raise_post (W : Collaborators) (res : exn + unit) (tr : history)
  : Prop :=
  forall pre ev post what,
    tr = pre ++ ev :: post ->
    raised W pre ev = Some what ->
    post = [] /\ res = inl (Foreign what).

(** The line printed before the repository is created. *)
Definition banner (s : Settings) : string :=
  "Uploading distributions to " ++ repository_url s.

(** A status check is made on the response of the upload just before it,
    a response that is no redirect and that [skip_upload] lets through. *)
Definition checked_after_upload (W : Collaborators) (s : Settings)
    (pre : history) (ev : event) : Prop :=
  forall resp v,
    ev = EvCheckStatusCode resp v ->
    exists pre' package,
      pre = pre' ++ [EvUpload package] /\
      repository_upload W pre' package = Returns resp /\
      is_redirect resp = false /\
      Classifier.skip_upload resp (skip_existing s) package = false /\
      v = verbose s.

(** A signature is attached under the signed name of the package, from the
    file the signature map holds for that name. *)
Definition attached_from_map (signatures : gmap string string)
    (pre : history) (ev : event) : Prop :=
  forall package sigfile name,
    ev = EvAddGpgSignature package sigfile name ->
    name = signed_basefilename package /\
    signatures !! name = Some sigfile.

(** A line printed is the banner. *)
Definition prints_banner (s : Settings) (pre : history) (ev : event)
  : Prop :=
  forall line, ev = EvPrint line -> line = banner s.

(** The calls of [find_dists] satisfy [phi] whatever was called before. *)
Definition holds_of_fs_queries (phi : history -> event -> Prop) : Prop :=
  forall pre ev, is_fs_query ev = true -> phi pre ev.

(** A call that returned, by the answers recorded in the context. *)
Ltac returned_event :=
  unfold returned; cbn [raised];
  repeat match goal with
         | H : _ = Returns _ |- _ => rewrite H
         end;
  reflexivity.

(** The last call of an aborted pass raised: its exception is the result. *)
Ltac raised_event :=
  let Hr := fresh "Hr" in
  intros ? Hr; cbn [raised] in Hr;
  repeat match goal with
         | H : _ = Raises _ |- _ => rewrite H in Hr
         | H : _ = Returns _ |- _ => rewrite H in Hr
         end;
  first [discriminate Hr | injection Hr as <-; reflexivity].

(** A call that attaches a signature, by the entry found in the map. *)
Ltac attached_event :=
  let Hev := fresh "Hev" in
  intros ? ? ? Hev;
  first [ discriminate Hev
        | injection Hev as <- <- <-; split; [reflexivity | assumption] ].

(** A status check, by the upload just before it and what was found of its
    response. *)
Ltac checked_event :=
  let Hev := fresh "Hev" in
  intros ? ? Hev;
  first [ discriminate Hev
        | injection Hev as <- <-; do 2 eexists;
          split; [reflexivity|];
          split; [eassumption|];
          split; [assumption|];
          split; [congruence | reflexivity] ].

(** A call that prints nothing. *)
Ltac silent_event :=
  let Hev := fresh "Hev" in
  intros ? Hev; discriminate Hev.

(** [skip_upload] cannot have said yes with [skip_existing] off. *)
Ltac skip_upload_off :=
  match goal with
  | H : Classifier.skip_upload _ false _ = true |- _ =>
      unfold Classifier.skip_upload in H; cbn [andb] in H; discriminate H
  end.

End Trace.

(* ===================================================================== *)
(** ** Facts about strings *)
(* ===================================================================== *)

Module StrFacts.
Import Str.

Lemma app_cons (c : ascii) (a b : string) :
  (String c a ++ b)%string = String c (a ++ b)%string.
Proof. reflexivity. Qed.

Lemma substring_app_skip (pre s : string) (k : nat) :
  substring (String.length pre) k (pre ++ s)%string = substring 0 k s.
Proof. induction pre as [|c pre IH]; simpl; auto. Qed.

Lemma substring_all (s : string) : substring 0 (String.length s) s = s.
Proof. induction s as [|c s IH]; simpl; congruence. Qed.

Lemma length_app (a b : string) :
  String.length (a ++ b)%string = (String.length a + String.length b)%nat.
Proof. induction a as [|c a IH]; simpl; auto. Qed.

Lemma split_at (s : string) (m : nat) :
  (m <= String.length s)%nat ->
  s = (substring 0 m s ++ substring m (String.length s - m) s)%string.
Proof.
  revert m. induction s as [|c s IH]; intros m Hm.
  - destruct m; simpl in *; [reflexivity | lia].
  - destruct m as [|m]; simpl.
    + rewrite substring_all. reflexivity.
    + change (String c s =
              String c (substring 0 m s ++
                        substring m (String.length s - m) s)%string).
      f_equal. apply IH. simpl in Hm. lia.
Qed.

Lemma endswith_spec (s suffix : string) :
  endswith s suffix = true <-> exists pre, s = (pre ++ suffix)%string.
Proof.
  unfold endswith. rewrite andb_true_iff, Nat.leb_le, String.eqb_eq. split.
  - intros [Hle Hsub].
    exists (substring 0 (String.length s - String.length suffix) s).
    pose proof (split_at s (String.length s - String.length suffix)) as H.
    replace (String.length s - (String.length s - String.length suffix))%nat
      with (String.length suffix) in H by lia.
    rewrite Hsub in H. apply H. lia.
  - intros [pre ->]. rewrite length_app. split; [lia|].
    replace (String.length pre + String.length suffix -
             String.length suffix)%nat
      with (String.length pre) by lia.
    rewrite substring_app_skip. apply substring_all.
Qed.

Lemma startswith_spec (s p : string) :
  startswith s p = true <-> exists rest, s = (p ++ rest)%string.
Proof.
  unfold startswith. revert s. induction p as [|c p IH]; intros s.
  - destruct s; simpl; split; eauto.
  - destruct s as [|d s]; simpl.
    + split; [discriminate | intros [r Hr]; discriminate].
    + destruct (ascii_dec c d) as [->|Hne].
      * rewrite IH. split; intros [r Hr]; exists r.
        -- rewrite app_cons. congruence.
        -- rewrite app_cons in Hr. congruence.
      * split; [discriminate|].
        intros [r Hr]. rewrite app_cons in Hr. congruence.
Qed.

Lemma endswith_truthy (s suffix : string) :
  endswith s suffix = true -> truthy suffix = true -> truthy s = true.
Proof.
  intros H Hs. apply endswith_spec in H as [pre ->].
  destruct pre; [exact Hs | reflexivity].
Qed.

End StrFacts.

(* ===================================================================== *)
(** ** Wheels first: the stable partition *)
(* ===================================================================== *)

Module WheelFacts.
Import Wheel.

(** *** The sort is a stable sort *)
Section StableSortFacts.
Context {A : Type} (key : A -> Z).

Lemma insert_by_key_perm (x : A) (l : list A) :
  Permutation (x :: l) (insert_by_key key x l).
Proof.
  induction l as [|y l IH]; simpl; [reflexivity|].
  destruct (key x <=? key y)%Z; [reflexivity|].
  rewrite perm_swap. constructor. exact IH.
Qed.

Lemma sort_by_key_perm (l : list A) : Permutation l (sort_by_key key l).
Proof.
  induction l as [|x l IH]; simpl; [constructor|].
  rewrite <- insert_by_key_perm. constructor. exact IH.
Qed.

Lemma insert_by_key_sorted (x : A) (l : list A) :
  StronglySorted (key_le key) l ->
  StronglySorted (key_le key) (insert_by_key key x l).
Proof.
  induction 1 as [|y l Hs IH Hall]; simpl.
  - repeat constructor.
  - destruct (Z.leb_spec (key x) (key y)) as [Hle|Hgt].
    + constructor; [constructor; assumption|].
      constructor; [exact Hle|].
      eapply Forall_impl; [exact Hall|].
      unfold key_le in *. intros; lia.
    + constructor; [exact IH|].
      eapply Permutation_Forall; [apply insert_by_key_perm|].
      constructor; [unfold key_le; lia | exact Hall].
Qed.

Lemma sort_by_key_sorted (l : list A) :
  StronglySorted (key_le key) (sort_by_key key l).
Proof.
  induction l as [|x l IH]; simpl;
    [constructor | apply insert_by_key_sorted, IH].
Qed.

(** Stability: the elements of any one key keep their input order. *)
Lemma insert_by_key_stable (k : Z) (x : A) (l : list A) :
  List.filter (fun y => (key y =? k)%Z) (insert_by_key key x l) =
  List.filter (fun y => (key y =? k)%Z) (x :: l).
Proof.
  induction l as [|y l IH]; [reflexivity|].
  cbn [insert_by_key].
  destruct (Z.leb_spec (key x) (key y)) as [Hle|Hgt]; [reflexivity|].
  cbn [List.filter] in *. rewrite IH.
  destruct (Z.eqb_spec (key x) k), (Z.eqb_spec (key y) k);
    try reflexivity; lia.
Qed.

Lemma sort_by_key_stable (k : Z) (l : list A) :
  List.filter (fun y => (key y =? k)%Z) (sort_by_key key l) =
  List.filter (fun y => (key y =? k)%Z) l.
Proof.
  induction l as [|x l IH]; [reflexivity|].
  cbn [sort_by_key]. rewrite insert_by_key_stable.
  cbn [List.filter]. rewrite IH. reflexivity.
Qed.
End StableSortFacts.

(** *** The two keys of the source *)

Lemma insert_whl (x : string) (l : list string) :
  is_whl x = true -> insert_by_key whl_key x l = x :: l.
Proof.
  intros Hx. destruct l as [|y l]; [reflexivity|].
  cbn [insert_by_key]. unfold whl_key at 1 2. rewrite Hx.
  destruct (is_whl y); reflexivity.
Qed.

Lemma insert_non_whl (x : string) (ws os : list string) :
  is_whl x = false ->
  Forall (fun w => is_whl w = true) ws ->
  Forall (fun o => is_whl o = false) os ->
  insert_by_key whl_key x (ws ++ os) = ws ++ x :: os.
Proof.
  intros Hx Hws Hos. induction Hws as [|w ws Hw _ IH].
  - destruct os as [|o os]; [reflexivity|].
    cbn [app insert_by_key]. unfold whl_key at 1 2.
    inversion Hos as [|? ? Ho _]; subst. rewrite Hx, Ho. reflexivity.
  - cbn [app insert_by_key]. unfold whl_key at 1 2. rewrite Hx, Hw.
    cbn. rewrite IH. reflexivity.
Qed.

Lemma filter_whl_all (l : list string) :
  Forall (fun w => is_whl w = true) (List.filter is_whl l).
Proof.
  apply List.Forall_forall. intros w Hw. apply filter_In in Hw. tauto.
Qed.

Lemma filter_non_whl_all (l : list string) :
  Forall (fun o => is_whl o = false) (List.filter non_whl l).
Proof.
  apply List.Forall_forall. intros o Ho. apply filter_In in Ho.
  unfold non_whl in Ho. destruct (is_whl o); [|reflexivity].
  destruct Ho; discriminate.
Qed.

(** Sorting on the wheel key is the stable partition. *)
Lemma sort_whl_key (l : list string) :
  sort_by_key whl_key l = List.filter is_whl l ++ List.filter non_whl l.
Proof.
  induction l as [|x l IH]; [reflexivity|].
  cbn [sort_by_key List.filter]. rewrite IH.
  assert (Hn : non_whl x = negb (is_whl x)) by reflexivity. rewrite Hn.
  destruct (is_whl x) eqn:Hx; cbn [negb].
  - apply insert_whl, Hx.
  - apply insert_non_whl;
      [exact Hx | apply filter_whl_all | apply filter_non_whl_all].
Qed.

Lemma any_wheel_existsb (files : list string) :
  any_wheel files = existsb is_whl files.
Proof.
  unfold any_wheel. induction files as [|f files IH]; [reflexivity|].
  cbn [List.filter existsb]. destruct (is_whl f) eqn:Hf; [|exact IH].
  cbn [existsb orb].
  rewrite (StrFacts.endswith_truthy f ".whl" Hf eq_refl). reflexivity.
Qed.

Lemma no_wheel_filter (files : list string) :
  existsb is_whl files = false ->
  List.filter is_whl files = [] /\ List.filter non_whl files = files.
Proof.
  induction files as [|f files IH]; [split; reflexivity|].
  cbn [existsb List.filter].
  assert (Hn : non_whl f = negb (is_whl f)) by reflexivity. rewrite Hn.
  intros H. apply orb_false_iff in H as [Hf Hrest]. rewrite Hf. cbn [negb].
  destruct (IH Hrest) as [-> ->]. split; reflexivity.
Qed.

Lemma group_wheel_files_first_partition (files : list string) :
  group_wheel_files_first files =
  List.filter is_whl files ++ List.filter non_whl files.
Proof.
  unfold group_wheel_files_first, group_wheel_files_first_run.
  rewrite any_wheel_existsb.
  destruct (existsb is_whl files) eqn:He; cbn [negb snd].
  - apply sort_whl_key.
  - destruct (no_wheel_filter files He) as [-> ->]. reflexivity.
Qed.

(** C4.  When some name ends in [.whl], the result is the names ending in
    [.whl], in their input order, followed by the other names, in their
    input order: a stable partition.  When no name ends in [.whl], the list
    comes back as it was given and [list.sort] is not run on it. *)
Theorem group_wheel_files_first_stable_partition (files : list string) :
  (existsb is_whl files = true ->
     exists wheels others,
       group_wheel_files_first files = wheels ++ others /\
       wheels = List.filter is_whl files /\
       others = List.filter non_whl files /\
       Forall (fun w => Str.endswith w ".whl" = true) wheels /\
       Forall (fun o => Str.endswith o ".whl" = false) others /\
       Permutation files (group_wheel_files_first files)) /\
  (existsb is_whl files = false ->
     group_wheel_files_first files = files /\ sort_ran files = false).
Proof.
  split; intros He.
  - exists (List.filter is_whl files), (List.filter non_whl files).
    repeat split.
    + apply group_wheel_files_first_partition.
    + apply filter_whl_all.
    + apply filter_non_whl_all.
    + unfold group_wheel_files_first, group_wheel_files_first_run.
      rewrite any_wheel_existsb, He. cbn [negb snd].
      apply sort_by_key_perm.
  - unfold group_wheel_files_first, sort_ran, group_wheel_files_first_run.
    rewrite any_wheel_existsb, He. split; reflexivity.
Qed.

Lemma group_wheel_files_first_stable_partition_witness :
  (existsb is_whl ["b.tar.gz"; "z.whl"; "a.whl"; "a.tar.gz"] = true /\
   group_wheel_files_first ["b.tar.gz"; "z.whl"; "a.whl"; "a.tar.gz"] =
     ["z.whl"; "a.whl"] ++ ["b.tar.gz"; "a.tar.gz"]) /\
  (existsb is_whl ["b.zip"; "a.zip"] = false /\
   group_wheel_files_first ["b.zip"; "a.zip"] = ["b.zip"; "a.zip"] /\
   sort_ran ["b.zip"; "a.zip"] = false).
Proof.
  split.
  - split; [reflexivity|].
    destruct (proj1 (group_wheel_files_first_stable_partition
                       ["b.tar.gz"; "z.whl"; "a.whl"; "a.tar.gz"]) eq_refl)
      as (wheels & others & Hout & -> & -> & _).
    exact Hout.
  - split; [reflexivity|].
    exact (proj2 (group_wheel_files_first_stable_partition
                    ["b.zip"; "a.zip"]) eq_refl).
Defined.

End WheelFacts.

(* ===================================================================== *)
(** ** The classifier *)
(* ===================================================================== *)

Module ClassifierFacts.
Import Sample.

Lemma skip_upload_needs_flag (resp : Response) (flag : bool)
    (package : PackageFile) :
  Classifier.skip_upload resp flag package = true -> flag = true.
Proof.
  unfold Classifier.skip_upload.
  destruct flag; [reflexivity | discriminate].
Qed.

(** C1.  [skip_upload] answers true exactly when [skip_existing] is true
    and the status code is 409, or is 400 with a reason that starts with
    the phrase naming the file or with the generic phrase; it answers false
    whenever [skip_existing] is false. *)
Theorem skip_upload_iff (response : Response) (skip_existing : bool)
    (package : PackageFile) :
  (Classifier.skip_upload response skip_existing package = true <->
   skip_existing = true /\
   (status_code response = 409%Z \/
    (status_code response = 400%Z /\
     ((exists rest,
         reason response =
           ("A file named " ++ String Str.dquote
              (basefilename package ++
               String Str.dquote " already exists for") ++ rest)%string) \/
      (exists rest,
         reason response = ("File already exists" ++ rest)%string))))) /\
  Classifier.skip_upload response false package = false.
Proof.
  split; [|reflexivity].
  unfold Classifier.skip_upload, Str.startswith_any. cbn [existsb].
  rewrite andb_true_iff, orb_true_iff, andb_true_iff, !orb_true_iff.
  rewrite !Z.eqb_eq, !StrFacts.startswith_spec.
  unfold Classifier.msg_named, Classifier.msg_generic.
  intuition discriminate.
Qed.

Lemma skip_upload_iff_witness :
  Classifier.skip_upload (answer 400 "File already exists.") true (pkg whl)
    = true /\
  Classifier.skip_upload (answer 409 "Conflict") false (pkg whl) = false.
Proof.
  destruct (skip_upload_iff (answer 400 "File already exists.") true (pkg whl))
    as [Hiff _].
  split.
  - apply Hiff. split; [reflexivity|]. right. split; [reflexivity|].
    right. exists ".". reflexivity.
  - exact (proj2 (skip_upload_iff (answer 409 "Conflict") false (pkg whl))).
Defined.

End ClassifierFacts.

(* ===================================================================== *)
(** ** Logs *)
(* ===================================================================== *)

Module LogFacts.
Import Orchestrator.

Lemma snoc_split {A : Type} (h pre post : list A) (e x : A) :
  h ++ [e] = pre ++ x :: post ->
  (pre = h /\ x = e /\ post = []) \/
  (exists post', post = post' ++ [e] /\ h = pre ++ x :: post').
Proof.
  intros H. destruct post as [|y post _] using rev_ind.
  - apply app_inj_tail in H as [-> ->]. left. auto.
  - right. exists post.
    change (h ++ [e] = pre ++ (x :: post) ++ [y]) in H.
    rewrite app_assoc in H. apply app_inj_tail in H as [-> ->]. auto.
Qed.

Lemma Every_nil (phi : history -> event -> Prop) : Every phi [].
Proof. intros pre ev post H. destruct pre; discriminate. Qed.

Lemma Every_snoc (phi : history -> event -> Prop) (h : history) (e : event) :
  Every phi h -> phi h e -> Every phi (h ++ [e]).
Proof.
  intros Hh He pre ev post H.
  apply snoc_split in H as [(-> & -> & _) | (post' & _ & ->)].
  - exact He.
  - eapply Hh. reflexivity.
Qed.

Lemma Every_snoc_inv (phi : history -> event -> Prop) (h : history)
    (e : event) :
  Every phi (h ++ [e]) -> Every phi h /\ phi h e.
Proof.
  intros H. split.
  - intros pre ev post ->. apply (H pre ev (post ++ [e])).
    rewrite <- app_assoc. reflexivity.
  - apply (H h e []). reflexivity.
Qed.

Lemma count_nil (p : event -> bool) : count p [] = 0.
Proof. reflexivity. Qed.

Lemma count_snoc (p : event -> bool) (h : history) (e : event) :
  count p (h ++ [e]) = count p h + (if p e then 1 else 0).
Proof.
  unfold count. rewrite List.filter_app, List.length_app. cbn [List.filter].
  destruct (p e); reflexivity.
Qed.

Lemma count_repository_calls (h : history) :
  count is_repository_call h =
  count is_package_is_uploaded h + count is_upload h + count is_close h.
Proof.
  unfold count. induction h as [|ev h IH]; [reflexivity|].
  destruct ev; cbn [List.filter is_repository_call is_package_is_uploaded
                    is_upload is_close orb length]; lia.
Qed.

Lemma count_app (p : event -> bool) (h k : history) :
  count p (h ++ k) = count p h + count p k.
Proof. unfold count. rewrite List.filter_app, List.length_app. reflexivity. Qed.

End LogFacts.

(* ===================================================================== *)
(** ** The loop *)
(* ===================================================================== *)

Module BodyFacts.
Import Orchestrator LogFacts.

Section Loop.
Variable W : Collaborators.
Variable s : Settings.
Variable signatures : gmap string string.

(** The loop rule: an invariant of the log, indexed by the files still to
    be processed, and a postcondition for the exception that ends the
    loop early. *)
Lemma upload_loop_rule (Inv : list string -> history -> Prop)
    (Err : exn -> history -> Prop) :
  (forall fname rest h, Inv (fname :: rest) h ->
     match upload_file W s signatures fname h with
     | (inr _, tr) => Inv rest tr
     | (inl e, tr) => Err e tr
     end) ->
  forall uploads h, Inv uploads h ->
    match upload_loop W s signatures uploads h with
    | (inr _, tr) => Inv [] tr
    | (inl e, tr) => Err e tr
    end.
Proof.
  intros Hbody. induction uploads as [|fname rest IH]; intros h Hinv.
  - exact Hinv.
  - cbn [upload_loop]. unfold bind at 1.
    specialize (Hbody fname rest h Hinv).
    destruct (upload_file W s signatures fname h) as [[e|u] tr].
    + exact Hbody.
    + apply IH, Hbody.
Qed.

Lemma upload_loop_cons (fname : string) (rest : list string) (h : history) :
  upload_loop W s signatures (fname :: rest) h =
  match upload_file W s signatures fname h with
  | (inl e, tr) => (inl e, tr)
  | (inr _, tr) => upload_loop W s signatures rest tr
  end.
Proof. reflexivity. Qed.

Lemma upload_file_extends (fname : string) (h : history) :
  exists ext, snd (upload_file W s signatures fname h) = h ++ ext.
Proof.
  body_cases; rewrite <- ?app_assoc; eexists; reflexivity.
Qed.

Lemma upload_file_count (p : event -> bool) (fname : string) (h : history) :
  (forall ev, p ev = true -> is_close ev = true) -> 
  count p (snd (upload_file W s signatures fname h)) = count p h.
Proof.
  intros Hp.
  assert (Hf : forall ev, is_close ev = false -> p ev = false).
  { intros ev Hev. destruct (p ev) eqn:E; [|reflexivity].
    apply Hp in E. congruence. }
  body_cases; rewrite ?count_snoc, ?Hf by reflexivity; lia.
Qed.

(** A pass of the loop body starts by constructing the package. *)
Lemma upload_file_starts (fname : string) (h : history) :
  exists ext,
    snd (upload_file W s signatures fname h) =
    h ++ EvFromFilename fname (comment s) :: ext.
Proof.
  body_cases; cbn [snd]; rewrite <- ?app_assoc; eexists; reflexivity.
Qed.

(** The loop only adds to the log. *)
Lemma upload_loop_extends (uploads : list string) (h : history) :
  exists ext, snd (upload_loop W s signatures uploads h) = h ++ ext.
Proof.
  revert h. induction uploads as [|fname rest IH]; intros h.
  - exists []. symmetry. apply app_nil_r.
  - rewrite upload_loop_cons.
    destruct (upload_file_extends fname h) as [ext Hext].
    destruct (upload_file W s signatures fname h) as [[e|u] tr];
      cbn [snd] in *; subst tr; [exists ext; reflexivity|].
    destruct (IH (h ++ ext)) as [ext' ->].
    exists (ext ++ ext'). rewrite <- app_assoc. reflexivity.
Qed.

(** The loop starts with the construction of the package of its first
    file. *)
Lemma upload_loop_starts (next : string) (rest : list string)
    (h : history) :
  exists more,
    snd (upload_loop W s signatures (next :: rest) h) =
    h ++ EvFromFilename next (comment s) :: more.
Proof.
  rewrite upload_loop_cons.
  destruct (upload_file_starts next h) as [ext Hext].
  destruct (upload_file W s signatures next h) as [[e|u] tr];
    cbn [snd] in *; subst tr; [exists ext; reflexivity|].
  destruct (upload_loop_extends rest
              (h ++ EvFromFilename next (comment s) :: ext)) as [ext' ->].
  exists (ext ++ ext'). rewrite <- app_assoc. reflexivity.
Qed.

(** What the condition of the first [if] adds to the log: nothing, or the
    pre-flight query. *)
Lemma skip_existing_check_log (package : PackageFile) (h h1 : history)
    (res : exn + bool) :
  skip_existing_check W s package h = (res, h1) ->
  h1 = h \/ h1 = h ++ [EvPackageIsUploaded package].
Proof.
  unfold skip_existing_check, call, ret.
  destruct (skip_existing s); intros H; injection H as _ <-; auto.
Qed.

(** What the signature step adds to the log: nothing, or one call on a
    signature. *)
Lemma attach_signature_log (package : PackageFile) (h h1 : history)
    (res : exn + PackageFile) :
  attach_signature W s signatures package h = (res, h1) ->
  h1 = h \/ exists ev, h1 = h ++ [ev] /\ is_signature_call ev = true.
Proof.
  unfold attach_signature, call, ret.
  destruct (signatures !! signed_basefilename package);
    [|destruct (sign s)]; intros H; injection H as _ <-;
    [right | right | left]; eauto.
Qed.
End Loop.
End BodyFacts.

(* ===================================================================== *)
(** ** Resolution of the input *)
(* ===================================================================== *)

Module ResolverFacts.
Import Orchestrator LogFacts.

Section FindDists.
Variable W : Collaborators.

Lemma find_dists_loop_cons (fname : string) (rest uploads : list string)
    (h : history) :
  find_dists_loop W (fname :: rest) uploads h =
  if os_path_exists W fname then
    find_dists_loop W rest (uploads ++ [fname]) (h ++ [EvExists fname])
  else
    match glob_glob W fname with
    | [] => (inl (ValueError (cannot_find fname)),
             (h ++ [EvExists fname]) ++ [EvGlob fname])
    | _ :: _ =>
        find_dists_loop W rest (uploads ++ glob_glob W fname)
          ((h ++ [EvExists fname]) ++ [EvGlob fname])
    end.
Proof.
  cbn [find_dists_loop]. unfold bind, call, raise. cbn [lift_outcome].
  destruct (os_path_exists W fname); [reflexivity|].
  destruct (glob_glob W fname); reflexivity.
Qed.

(** [find_dists] only reads the filesystem. *)
Lemma find_dists_loop_fs (dists uploads : list string) (h : history) :
  exists ext,
    snd (find_dists_loop W dists uploads h) = h ++ ext /\
    Forall (fun ev => is_fs_query ev = true) ext.
Proof.
  revert uploads h. induction dists as [|fname rest IH]; intros uploads h.
  - exists []. split; [symmetry; apply app_nil_r | constructor].
  - rewrite find_dists_loop_cons.
    destruct (os_path_exists W fname).
    + destruct (IH (uploads ++ [fname]) (h ++ [EvExists fname]))
        as (ext & -> & Hext).
      exists (EvExists fname :: ext). rewrite <- app_assoc.
      split; [reflexivity | constructor; [reflexivity | exact Hext]].
    + destruct (glob_glob W fname) as [|g gs] eqn:Hg.
      * exists [EvExists fname; EvGlob fname]. rewrite <- app_assoc.
        split; [reflexivity | repeat constructor].
      * destruct (IH (uploads ++ g :: gs)
                    ((h ++ [EvExists fname]) ++ [EvGlob fname]))
          as (ext & -> & Hext).
        exists (EvExists fname :: EvGlob fname :: ext).
        rewrite <- !app_assoc.
        split; [reflexivity | repeat constructor; exact Hext].
Qed.

Lemma find_dists_log (dists : list string) :
  snd (find_dists W dists []) = snd (find_dists_loop W dists [] []) /\
  Forall (fun ev => is_fs_query ev = true) (snd (find_dists W dists [])).
Proof.
  unfold find_dists, bind, ret.
  destruct (find_dists_loop_fs dists [] []) as (ext & Hext & Hfs).
  destruct (find_dists_loop W dists [] []) as [[e|out] tr];
    cbn [snd] in *; subst tr; split; auto.
Qed.

(** [glob.glob] is asked about a name only after [os.path.exists] said
    no. *)
Lemma find_dists_loop_glob (all dists uploads : list string) (h : history) :
  (forall f, In f dists -> In f all) ->
  Every (glob_only_missing W all) h ->
  Every (glob_only_missing W all) (snd (find_dists_loop W dists uploads h)).
Proof.
  revert uploads h. induction dists as [|fname rest IH];
    intros uploads h Hin Hh; [exact Hh|].
  assert (Hrest : forall f, In f rest -> In f all)
    by (intros f Hf; apply Hin; right; exact Hf).
  assert (Hex : Every (glob_only_missing W all) (h ++ [EvExists fname])).
  { apply Every_snoc; [exact Hh|]. intros pattern Hp. discriminate Hp. }
  rewrite find_dists_loop_cons.
  destruct (os_path_exists W fname) eqn:Hfound; [apply IH; assumption|].
  assert (Hgl : Every (glob_only_missing W all)
                  ((h ++ [EvExists fname]) ++ [EvGlob fname])).
  { apply Every_snoc; [exact Hex|]. intros pattern Hp.
    injection Hp as <-. split; [exact Hfound | apply Hin; left; reflexivity]. }
  destruct (glob_glob W fname); [exact Hgl | apply IH; assumption].
Qed.

(** The list built by the loop when every name resolves. *)
Lemma find_dists_loop_ok (dists uploads : list string) (h : history) :
  forallb (fun f => negb (unmatched W f)) dists = true ->
  fst (find_dists_loop W dists uploads h) =
  inr (uploads ++ flat_map (resolve_one W) dists).
Proof.
  revert uploads h. induction dists as [|fname rest IH]; intros uploads h.
  - intros _. cbn. rewrite app_nil_r. reflexivity.
  - cbn [forallb]. rewrite andb_true_iff. intros [Hf Hrest].
    rewrite find_dists_loop_cons. cbn [flat_map].
    unfold unmatched, resolve_one in *.
    destruct (os_path_exists W fname).
    + rewrite IH by exact Hrest. rewrite <- app_assoc. reflexivity.
    + destruct (glob_glob W fname) as [|g gs]; [discriminate Hf|].
      rewrite IH by exact Hrest. rewrite <- app_assoc. reflexivity.
Qed.

(** The loop stops at the first name that resolves to nothing. *)
Lemma find_dists_loop_fail (pre post uploads : list string)
    (pattern : string) (h : history) :
  forallb (fun f => negb (unmatched W f)) pre = true ->
  unmatched W pattern = true ->
  fst (find_dists_loop W (pre ++ pattern :: post) uploads h) =
  inl (ValueError (cannot_find pattern)).
Proof.
  revert uploads h. induction pre as [|fname pre IH]; intros uploads h.
  - intros _ Hp. cbn [app]. rewrite find_dists_loop_cons.
    unfold unmatched in Hp. apply andb_true_iff in Hp as [Hex Hgl].
    destruct (os_path_exists W pattern); [discriminate Hex|].
    destruct (glob_glob W pattern); [reflexivity | discriminate Hgl].
  - cbn [forallb app]. rewrite andb_true_iff. intros [Hf Hpre] Hp.
    rewrite find_dists_loop_cons. unfold unmatched in Hf.
    destruct (os_path_exists W fname); [apply IH; assumption|].
    destruct (glob_glob W fname); [discriminate Hf | apply IH; assumption].
Qed.

(** A list with an unmatched name splits at the first one. *)
Lemma first_unmatched (dists : list string) :
  existsb (unmatched W) dists = true ->
  exists pre pattern post,
    dists = pre ++ pattern :: post /\
    forallb (fun f => negb (unmatched W f)) pre = true /\
    unmatched W pattern = true.
Proof.
  induction dists as [|f dists IH]; [discriminate|].
  cbn [existsb]. destruct (unmatched W f) eqn:Hf.
  - intros _. exists [], f, dists. auto.
  - intros H. destruct (IH H) as (pre & pattern & post & -> & Hpre & Hp).
    exists (f :: pre), pattern, post. cbn [forallb]. rewrite Hf. auto.
Qed.

Lemma all_matched (dists : list string) :
  existsb (unmatched W) dists = false ->
  forallb (fun f => negb (unmatched W f)) dists = true.
Proof.
  induction dists as [|f dists IH]; [reflexivity|].
  cbn [existsb forallb]. intros H. apply orb_false_iff in H as [-> H].
  exact (IH H).
Qed.

Lemma find_dists_fail (dists pre post : list string) (pattern : string) :
  dists = pre ++ pattern :: post ->
  forallb (fun f => negb (unmatched W f)) pre = true ->
  unmatched W pattern = true ->
  fst (find_dists W dists []) = inl (ValueError (cannot_find pattern)).
Proof.
  intros -> Hpre Hp. unfold find_dists, bind.
  pose proof (find_dists_loop_fail pre post [] pattern [] Hpre Hp) as H.
  destruct (find_dists_loop W (pre ++ pattern :: post) [] []) as [[e|out] tr];
    cbn [fst] in *; congruence.
Qed.

Lemma find_dists_ok (dists : list string) :
  existsb (unmatched W) dists = false ->
  fst (find_dists W dists []) =
  inr (Wheel.group_wheel_files_first (flat_map (resolve_one W) dists)).
Proof.
  intros H. unfold find_dists, bind, ret.
  pose proof (find_dists_loop_ok dists [] [] (all_matched dists H)) as Hok.
  destruct (find_dists_loop W dists [] []) as [[e|out] tr];
    cbn [fst app] in *; congruence.
Qed.

Lemma find_dists_returns (dists out : list string) :
  fst (find_dists W dists []) = inr out ->
  existsb (unmatched W) dists = false.
Proof.
  intros H. destruct (existsb (unmatched W) dists) eqn:He; [|reflexivity].
  destruct (first_unmatched dists He) as (pre & p & post & Hd & Hpre & Hp).
  rewrite (find_dists_fail dists pre post p Hd Hpre Hp) in H.
  discriminate H.
Qed.

End FindDists.
End ResolverFacts.

(* ===================================================================== *)
(** ** The whole command *)
(* ===================================================================== *)

Module RunFacts.
Import Orchestrator LogFacts BodyFacts ResolverFacts.

Lemma Every_of_Forall (phi : history -> event -> Prop) (h : history) :
  Forall (fun ev => forall pre, phi pre ev) h -> Every phi h.
Proof.
  intros H pre ev post ->. rewrite List.Forall_forall in H.
  apply H. apply in_elt.
Qed.

Lemma count_zero_of_Forall (p : event -> bool) (h : history) :
  Forall (fun ev => p ev = false) h -> count p h = 0.
Proof.
  unfold count. induction 1 as [|ev h Hev _ IH]; [reflexivity|].
  cbn [List.filter]. rewrite Hev. exact IH.
Qed.

Lemma fs_log_count (p : event -> bool) (h : history) :
  (forall ev, is_fs_query ev = true -> p ev = false) ->
  Forall (fun ev => is_fs_query ev = true) h -> count p h = 0.
Proof.
  intros Hp Hh. apply count_zero_of_Forall.
  eapply Forall_impl; [exact Hh | exact Hp].
Qed.

Section Command.
Variable W : Collaborators.
Variable s : Settings.

(** The straight-line part of [upload] around the loop. *)
Lemma upload_run (dists : list string) :
  run (upload W s dists) =
  match find_dists W dists [] with
  | (inl e, h0) => (inl e, h0)
  | (inr ds, h0) =>
      let h1 := h0 ++ [EvCheckRepositoryUrl] in
      let h2 :=
        h1 ++ [EvPrint ("Uploading distributions to " ++ repository_url s)] in
      let h3 := h2 ++ [EvCreateRepository] in
      match check_repository_url W h0 with
      | Raises what => (inl (Foreign what), h1)
      | Returns _ =>
          match create_repository W h2 with
          | Raises what => (inl (Foreign what), h3)
          | Returns _ =>
              match upload_loop W s (signatures_of ds) (payloads_of ds) h3
              with
              | (inl e, h4) => (inl e, h4)
              | (inr _, h4) =>
                  (lift_outcome (repository_close W h4), h4 ++ [EvClose])
              end
          end
      end
  end.
Proof.
  unfold run, upload, bind, print, call. cbv zeta.
  destruct (find_dists W dists []) as [[e|ds] h0]; [reflexivity|].
  destruct (check_repository_url W h0); cbn [lift_outcome]; [reflexivity|].
  destruct (create_repository W _); cbn [lift_outcome]; [reflexivity|].
  destruct (upload_loop W s _ _ _) as [[e|u] h4]; reflexivity.
Qed.

(** A rule for the whole command: [Inv] holds of the log when the loop is
    entered and is kept by the loop body, [Post] is what is wanted of the
    result and the final log. *)
Lemma upload_rule (dists : list string)
    (Inv : list string -> history -> Prop)
    (Post : exn + unit -> history -> Prop) :
  (forall e h0, find_dists W dists [] = (inl e, h0) -> Post (inl e) h0) ->
  (forall ds h0 what,
     find_dists W dists [] = (inr ds, h0) ->
     Post (inl (Foreign what)) (h0 ++ [EvCheckRepositoryUrl]) /\
     Post (inl (Foreign what))
       (((h0 ++ [EvCheckRepositoryUrl]) ++
         [EvPrint ("Uploading distributions to " ++ repository_url s)]) ++
        [EvCreateRepository]) /\
     Inv (payloads_of ds)
       (((h0 ++ [EvCheckRepositoryUrl]) ++
         [EvPrint ("Uploading distributions to " ++ repository_url s)]) ++
        [EvCreateRepository])) ->
  (forall ds fname rest h, Inv (fname :: rest) h ->
     match upload_file W s (signatures_of ds) fname h with
     | (inr _, tr) => Inv rest tr
     | (inl e, tr) => Post (inl e) tr
     end) ->
  (forall h, Inv [] h ->
     Post (lift_outcome (repository_close W h)) (h ++ [EvClose])) ->
  Post (fst (run (upload W s dists))) (snd (run (upload W s dists))).
Proof.
  intros Hfd Hpre Hbody Hclose. rewrite upload_run.
  destruct (find_dists W dists []) as [[e|ds] h0] eqn:Efd;
    [exact (Hfd e h0 eq_refl)|].
  cbv zeta.
  destruct (check_repository_url W h0) as [what|u];
    [exact (proj1 (Hpre ds h0 what eq_refl))|].
  destruct (create_repository W _) as [what|u'];
    [exact (proj1 (proj2 (Hpre ds h0 what eq_refl)))|].
  pose proof (upload_loop_rule W s (signatures_of ds) Inv
                (fun e tr => Post (inl e) tr) (Hbody ds)
                (payloads_of ds) _
                (proj2 (proj2 (Hpre ds h0 "" eq_refl)))) as Hloop.
  destruct (upload_loop W s _ _ _) as [[e|u''] h4]; cbn [fst snd].
  - exact Hloop.
  - apply Hclose, Hloop.
Qed.

Lemma find_dists_fs (dists : list string) (res : exn + list string)
    (h0 : history) :
  find_dists W dists [] = (res, h0) ->
  Forall (fun ev => is_fs_query ev = true) h0.
Proof.
  intros H. pose proof (proj2 (find_dists_log W dists)) as Hfs.
  rewrite H in Hfs. exact Hfs.
Qed.

End Command.
End RunFacts.

(* ===================================================================== *)
(** ** Unmatched patterns and existing paths *)
(* ===================================================================== *)

Module Resolution.
Import Orchestrator LogFacts ResolverFacts RunFacts Sample.

Lemma In_group_wheel_files_first (f : string) (files : list string) :
  In f (Wheel.group_wheel_files_first files) <-> In f files.
Proof.
  rewrite WheelFacts.group_wheel_files_first_partition, in_app_iff,
    !filter_In.
  unfold Wheel.non_whl. destruct (Wheel.is_whl f); cbn [negb]; intuition.
Qed.

Section Resolve.
Variable W : Collaborators.

Lemma unmatched_spec (f : string) :
  unmatched W f = true <->
  os_path_exists W f = false /\ glob_glob W f = [].
Proof.
  unfold unmatched. destruct (os_path_exists W f), (glob_glob W f);
    cbn; intuition discriminate.
Qed.

(** C5.  When some input string neither exists nor matches anything as a
    pattern, [find_dists] raises [ValueError] with the message naming the
    first such string of the input, verbatim, and so does [upload]: by
    then only the filesystem has been queried, no repository has been
    created and nothing has been uploaded. *)
Theorem unmatched_pattern_aborts (s : Settings) (dists : list string)
    (f : string) :
  In f dists ->
  os_path_exists W f = false ->
  glob_glob W f = [] ->
  exists pre pattern post,
    dists = pre ++ pattern :: post /\
    Forall (fun q => unmatched W q = false) pre /\
    os_path_exists W pattern = false /\
    glob_glob W pattern = [] /\
    ((forall q, In q dists -> unmatched W q = true -> q = f) ->
     pattern = f) /\
    fst (run (find_dists W dists)) =
      inl (ValueError
             ("Cannot find file (or expand pattern): '" ++ pattern ++ "'")) /\
    fst (run (upload W s dists)) =
      inl (ValueError
             ("Cannot find file (or expand pattern): '" ++ pattern ++ "'")) /\
    Forall (fun ev => is_fs_query ev = true) (snd (run (upload W s dists))) /\
    count is_create_repository (snd (run (upload W s dists))) = 0 /\
    count is_upload (snd (run (upload W s dists))) = 0.
Proof.
  intros Hin Hex Hgl.
  assert (He : existsb (unmatched W) dists = true).
  { apply existsb_exists. exists f. split; [exact Hin|].
    apply unmatched_spec. auto. }
  destruct (first_unmatched W dists He) as (pre & p & post & Hd & Hpre & Hp).
  pose proof (find_dists_fail W dists pre post p Hd Hpre Hp) as Hfail.
  exists pre, p, post.
  apply unmatched_spec in Hp as Hp'. destruct Hp' as [Hpex Hpgl].
  change (run (find_dists W dists)) with (find_dists W dists []).
  destruct (find_dists W dists []) as [[e|ds] h0] eqn:Efd;
    cbn [fst] in Hfail; [|discriminate Hfail].
  injection Hfail as ->.
  assert (Hrun : run (upload W s dists) =
                 (inl (ValueError (cannot_find p)), h0))
    by (rewrite upload_run, Efd; reflexivity).
  pose proof (find_dists_fs W dists _ _ Efd) as Hfs.
  rewrite Hrun. cbn [fst snd].
  repeat split; try assumption; try reflexivity.
  - apply List.Forall_forall. intros q Hq.
    rewrite forallb_forall in Hpre. specialize (Hpre q Hq).
    destruct (unmatched W q); [discriminate Hpre | reflexivity].
  - intros Huniq. apply Huniq; [|exact Hp].
    rewrite Hd. apply in_elt.
  - apply fs_log_count with (2 := Hfs).
    intros [] Hev; try discriminate Hev; reflexivity.
  - apply fs_log_count with (2 := Hfs).
    intros [] Hev; try discriminate Hev; reflexivity.
Qed.

(** C9.  [glob.glob] is called only on input strings for which
    [os.path.exists] answered no; and when [find_dists] returns, its
    result is the wheels-first grouping of what the input strings
    resolve to, where a string that names an existing entry resolves to
    itself alone, so that it is in the result as it was given. *)
Theorem existing_path_is_taken_verbatim (dists : list string) :
  (forall pre pattern post,
      snd (run (find_dists W dists)) = pre ++ EvGlob pattern :: post ->
      os_path_exists W pattern = false /\ In pattern dists) /\
  (forall out,
      fst (run (find_dists W dists)) = inr out ->
      out = Wheel.group_wheel_files_first (flat_map (resolve_one W) dists) /\
      (forall f, In f dists -> os_path_exists W f = true ->
         resolve_one W f = [f] /\ In f out)).
Proof.
  change (run (find_dists W dists)) with (find_dists W dists []). split.
  - intros pre pattern post Hlog.
    rewrite (proj1 (find_dists_log W dists)) in Hlog.
    exact (find_dists_loop_glob W dists dists [] [] (fun _ H => H)
             (Every_nil _) pre (EvGlob pattern) post Hlog pattern eq_refl).
  - intros out Hout.
    pose proof (find_dists_ok W dists (find_dists_returns W dists out Hout))
      as Hok.
    assert (Heq : out =
              Wheel.group_wheel_files_first (flat_map (resolve_one W) dists))
      by congruence.
    split; [exact Heq|]. intros f Hin Hex.
    assert (Hres : resolve_one W f = [f])
      by (unfold resolve_one; rewrite Hex; reflexivity).
    split; [exact Hres|].
    rewrite Heq. apply In_group_wheel_files_first.
    apply in_flat_map. exists f. split; [exact Hin|].
    rewrite Hres. left. reflexivity.
Qed.
End Resolve.

Lemma unmatched_pattern_aborts_witness :
  exists pre pattern post,
    [whl; "nothing*"; sdist] = pre ++ pattern :: post /\
    Forall (fun q => unmatched accepting q = false) pre /\
    os_path_exists accepting pattern = false /\
    glob_glob accepting pattern = [] /\
    ((forall q, In q [whl; "nothing*"; sdist] ->
                unmatched accepting q = true -> q = "nothing*") ->
     pattern = "nothing*") /\
    fst (run (find_dists accepting [whl; "nothing*"; sdist])) =
      inl (ValueError
             ("Cannot find file (or expand pattern): '" ++ pattern ++ "'")) /\
    fst (run (upload accepting (settings false false)
                [whl; "nothing*"; sdist])) =
      inl (ValueError
             ("Cannot find file (or expand pattern): '" ++ pattern ++ "'")) /\
    Forall (fun ev => is_fs_query ev = true)
      (snd (run (upload accepting (settings false false)
                   [whl; "nothing*"; sdist]))) /\
    count is_create_repository
      (snd (run (upload accepting (settings false false)
                   [whl; "nothing*"; sdist]))) = 0 /\
    count is_upload
      (snd (run (upload accepting (settings false false)
                   [whl; "nothing*"; sdist]))) = 0.
Proof.
  apply (unmatched_pattern_aborts accepting (settings false false)
           [whl; "nothing*"; sdist] "nothing*").
  - right. left. reflexivity.
  - reflexivity.
  - reflexivity.
Defined.

Lemma existing_path_is_taken_verbatim_witness :
  os_path_exists odd_disk "dist/pkg[1].tar.gz" = true /\
  resolve_one odd_disk "dist/pkg[1].tar.gz" = ["dist/pkg[1].tar.gz"] /\
  In "dist/pkg[1].tar.gz" ["dist/pkg[1].tar.gz"].
Proof.
  split; [reflexivity|].
  refine (proj2 (proj2 (existing_path_is_taken_verbatim odd_disk
                          ["dist/pkg[1].tar.gz"])
                   ["dist/pkg[1].tar.gz"] _)
            "dist/pkg[1].tar.gz" _ _).
  - reflexivity.
  - left. reflexivity.
  - reflexivity.
Defined.

End Resolution.

(* ===================================================================== *)
(** ** Redirects *)
(* ===================================================================== *)

Module Redirect.
Import Orchestrator LogFacts BodyFacts ResolverFacts RunFacts Sample.

Section Abort.
Variable W : Collaborators.
Variable s : Settings.

Lemma redirect_post_every (res : exn + unit) (tr : history) :
  Every (no_redirect W) tr -> redirect_post W s res tr.
Proof.
  intros H pre package post resp -> Hor Hred.
  specialize (H pre (EvUpload package) post eq_refl package resp eq_refl Hor).
  congruence.
Qed.

Lemma redirect_post_snoc (res : exn + unit) (h : history) (ev : event) :
  Every (no_redirect W) h ->
  (forall package resp,
     ev = EvUpload package ->
     repository_upload W h package = Returns resp ->
     is_redirect resp = true ->
     res = inl (redirect_exn s resp)) ->
  redirect_post W s res (h ++ [ev]).
Proof.
  intros Hh Hev pre package post resp Htr Hor Hred.
  apply snoc_split in Htr as [(-> & Heq & ->) | (post' & _ & ->)].
  - split; [reflexivity|]. eapply Hev; eauto.
  - specialize (Hh pre (EvUpload package) post' eq_refl package resp
                  eq_refl Hor).
    congruence.
Qed.

Lemma upload_file_redirect (signatures : gmap string string)
    (fname : string) (h : history) :
  Every (no_redirect W) h ->
  match upload_file W s signatures fname h with
  | (inr _, tr) => Every (no_redirect W) tr
  | (inl e, tr) => redirect_post W s (inl e) tr
  end.
Proof.
  intros Hh. body_cases.
  all: first
    [ solve [no_redirect_chain (Every_snoc (no_redirect W))]
    | solve [apply redirect_post_every;
             no_redirect_chain (Every_snoc (no_redirect W))]
    | apply redirect_post_snoc;
      [ solve [no_redirect_chain (Every_snoc (no_redirect W))]
      | redirect_event ] ].
Qed.

(** C2.  Whenever an upload is answered by a redirect, that upload is the
    last call of the run (no classification, no status check, no later
    file, no [close]), whatever came before it, and the command ends with
    an exception: [RedirectDetected], whose message is the repository URL
    in double quotes, [ attempted to redirect to ], the [location] header
    of the response in double quotes, and [ during upload. Aborting...];
    or the [KeyError] of the subscript when the response has no such
    header. *)
Theorem redirect_aborts_batch (dists : list string) (pre post : history)
    (package : PackageFile) (resp : Response) :
  snd (run (upload W s dists)) = pre ++ EvUpload package :: post ->
  repository_upload W pre package = Returns resp ->
  is_redirect resp = true ->
  post = [] /\
  (forall location,
      headers resp !! "location" = Some location ->
      fst (run (upload W s dists)) =
        inl (RedirectDetected
               (String "034"%char EmptyString ++ repository_url s ++
                String "034"%char EmptyString ++
                " attempted to redirect to " ++
                String "034"%char EmptyString ++ location ++
                String "034"%char EmptyString ++
                " during upload. Aborting...")%string)) /\
  (headers resp !! "location" = None ->
      fst (run (upload W s dists)) = inl (KeyError "location")).
Proof.
  intros Htr Hor Hred.
  cut (redirect_post W s (fst (run (upload W s dists)))
         (snd (run (upload W s dists)))).
  { intros Hpost. destruct (Hpost pre package post resp Htr Hor Hred)
      as [Hlast Hres].
    split; [exact Hlast|]. rewrite Hres. unfold redirect_exn.
    split; [intros location Hloc | intros Hloc]; rewrite Hloc; reflexivity. }
  clear Htr Hor Hred.
  apply (upload_rule W s dists (fun _ h => Every (no_redirect W) h)).
  - intros e h0 Hfd. apply redirect_post_every, Every_of_Forall.
    eapply Forall_impl; [exact (find_dists_fs W dists _ _ Hfd)|].
    intros ev Hev pre' p r Hp. destruct ev; discriminate.
  - intros ds h0 what Hfd.
    assert (H0 : Every (no_redirect W) h0).
    { apply Every_of_Forall.
      eapply Forall_impl; [exact (find_dists_fs W dists _ _ Hfd)|].
      intros ev Hev pre' p r Hp. destruct ev; discriminate. }
    split; [|split]; try apply redirect_post_every;
      no_redirect_chain (Every_snoc (no_redirect W)).
  - intros ds fname rest h Hinv. apply upload_file_redirect, Hinv.
  - intros h Hinv. apply redirect_post_every.
    no_redirect_chain (Every_snoc (no_redirect W)).
Qed.
End Abort.

Lemma redirect_aborts_batch_witness :
  fst (run (upload redirecting (settings false false) ["dist/*"])) =
  inl (RedirectDetected
         (String "034"%char EmptyString ++ "https://upload.pypi.org/legacy/" ++
          String "034"%char EmptyString ++ " attempted to redirect to " ++
          String "034"%char EmptyString ++ "https://elsewhere.example/" ++
          String "034"%char EmptyString ++
          " during upload. Aborting...")%string).
Proof.
  refine (proj1 (proj2 (redirect_aborts_batch redirecting
                          (settings false false) ["dist/*"]
                          (removelast
                             (snd (run (upload redirecting
                                          (settings false false)
                                          ["dist/*"]))))
                          []
                          (signed (pkg sdist) "pkg-1.0.tar.gz.asc")
                          (redirect_to "https://elsewhere.example/") _ _ _))
            "https://elsewhere.example/" _).
  - vm_compute. reflexivity.
  - vm_compute. reflexivity.
  - reflexivity.
  - vm_compute. reflexivity.
Defined.

End Redirect.

(* ===================================================================== *)
(** ** Release of the connection pool *)
(* ===================================================================== *)

Module Release.
Import Orchestrator LogFacts BodyFacts ResolverFacts RunFacts Sample.

Lemma close_post_zero (e : exn) (tr : history) :
  count is_close tr = 0 -> close_post (inl e) tr.
Proof.
  intros H. unfold close_post. rewrite H.
  repeat split; try lia; intros; discriminate.
Qed.

Lemma close_post_closed (W : Collaborators) (h : history) :
  count is_close h = 0 ->
  close_post (lift_outcome (repository_close W h)) (h ++ [EvClose]).
Proof.
  intros H. unfold close_post. rewrite count_snoc, H. cbn [is_close].
  repeat split; try lia.
  - intros msg Hm. destruct (repository_close W h); discriminate Hm.
  - intros pre ev Hev Hc. apply app_inj_tail in Hev as [_ <-]. discriminate Hc.
Qed.

(** C7 (amended).  [close] is called once when the command returns, and
    never more than once.  It is not called when the command is aborted by
    [RedirectDetected], nor when the last call made is another one than
    [close] (the failing status check, for one). *)
Theorem close_on_normal_return (W : Collaborators) (s : Settings)
    (dists : list string) :
  count is_close (snd (run (upload W s dists))) <= 1 /\
  (fst (run (upload W s dists)) = inr tt ->
     count is_close (snd (run (upload W s dists))) = 1) /\
  (forall msg, fst (run (upload W s dists)) = inl (RedirectDetected msg) ->
     count is_close (snd (run (upload W s dists))) = 0) /\
  (forall pre ev, snd (run (upload W s dists)) = pre ++ [ev] ->
     is_close ev = false ->
     count is_close (snd (run (upload W s dists))) = 0).
Proof.
  apply (upload_rule W s dists (fun _ h => count is_close h = 0) close_post).
  - intros e h0 Hfd. apply close_post_zero.
    apply fs_log_count with (2 := find_dists_fs W dists _ _ Hfd).
    intros [] Hev; try discriminate Hev; reflexivity.
  - intros ds h0 what Hfd.
    assert (H0 : count is_close h0 = 0).
    { apply fs_log_count with (2 := find_dists_fs W dists _ _ Hfd).
      intros [] Hev; try discriminate Hev; reflexivity. }
    split; [|split]; try apply close_post_zero;
      rewrite ?count_snoc, H0; reflexivity.
  - intros ds fname rest h Hinv.
    pose proof (upload_file_count W s (signatures_of ds) is_close fname h
                  (fun _ H => H)) as Hc.
    destruct (upload_file W s (signatures_of ds) fname h) as [[e|u] tr];
      cbn [snd] in Hc; [apply close_post_zero|]; lia.
  - intros h Hinv. apply close_post_closed, Hinv.
Qed.

Lemma close_on_normal_return_witness :
  count is_close
    (snd (run (upload accepting (settings false false) ["dist/*"]))) = 1 /\
  count is_close
    (snd (run (upload redirecting (settings false false) ["dist/*"]))) = 0.
Proof.
  split.
  - refine (proj1 (proj2 (close_on_normal_return accepting
                            (settings false false) ["dist/*"])) _).
    vm_compute. reflexivity.
  - refine (proj1 (proj2 (proj2 (close_on_normal_return redirecting
                                   (settings false false) ["dist/*"])))
              (redirect_message "https://upload.pypi.org/legacy/"
                 "https://elsewhere.example/") _).
    vm_compute. reflexivity.
Defined.

(** C7, as stated, fails: [close] is not called when the run is aborted by
    a redirect, nor when the status check raises. *)
Lemma close_not_called_on_abort :
  (fst (run (upload redirecting (settings false false) ["dist/*"])) =
     inl (RedirectDetected
            (redirect_message "https://upload.pypi.org/legacy/"
               "https://elsewhere.example/")) /\
   count is_close
     (snd (run (upload redirecting (settings false false) ["dist/*"]))) = 0) /\
  (fst (run (upload failing (settings false false) ["dist/*"])) =
     inl (Foreign "HTTPError") /\
   count is_check_status_code
     (snd (run (upload failing (settings false false) ["dist/*"]))) = 1 /\
   count is_close
     (snd (run (upload failing (settings false false) ["dist/*"]))) = 0).
Proof. vm_compute. repeat split; reflexivity. Qed.

End Release.

(* ===================================================================== *)
(** ** The pre-flight check *)
(* ===================================================================== *)

Module Preflight.
Import Orchestrator LogFacts BodyFacts ResolverFacts RunFacts Sample.

Section SkipExistingOff.
Variable W : Collaborators.
Variable s : Settings.
Hypothesis Hoff : skip_existing s = false.

Lemma upload_file_calls (signatures : gmap string string) (fname : string)
    (h : history) :
  count is_package_is_uploaded (snd (upload_file W s signatures fname h)) =
    count is_package_is_uploaded h /\
  count is_upload (snd (upload_file W s signatures fname h)) <=
    count is_upload h + 1 /\
  (forall u, fst (upload_file W s signatures fname h) = inr u ->
     count is_upload (snd (upload_file W s signatures fname h)) =
       count is_upload h + 1).
Proof.
  body_cases; try congruence; cbn [fst snd]; rewrite ?count_snoc;
    cbn [is_upload is_package_is_uploaded];
    (split; [lia | split; [lia | intros u Hu; first [discriminate Hu | lia]]]).
Qed.

(** C10.  With [skip_existing] off, [package_is_uploaded] is never called:
    the calls made on the repository are the uploads and the [close].
    There are no more uploads than payload files, and a run that returns
    has made exactly one [upload] per payload file and one [close].  One
    pass of the loop body makes at most one call on the repository, and
    that call is an upload. *)
Theorem no_preflight_query_when_disabled (dists : list string) :
  count is_package_is_uploaded (snd (run (upload W s dists))) = 0 /\
  count is_repository_call (snd (run (upload W s dists))) =
    count is_upload (snd (run (upload W s dists))) +
    count is_close (snd (run (upload W s dists))) /\
  count is_upload (snd (run (upload W s dists))) <=
    length (resolved_payloads W dists) /\
  count is_close (snd (run (upload W s dists))) <= 1 /\
  (fst (run (upload W s dists)) = inr tt ->
     count is_upload (snd (run (upload W s dists))) =
       length (resolved_payloads W dists) /\
     count is_close (snd (run (upload W s dists))) = 1) /\
  (forall (signatures : gmap string string) (fname : string) (h : history),
      count is_repository_call (snd (upload_file W s signatures fname h)) <=
        count is_repository_call h + 1 /\
      count is_upload (snd (upload_file W s signatures fname h)) -
        count is_upload h =
      count is_repository_call (snd (upload_file W s signatures fname h)) -
        count is_repository_call h).
Proof.
  set (n := length (resolved_payloads W dists)).
  cut (calls_post n (fst (run (upload W s dists)))
         (snd (run (upload W s dists)))).
  { intros (Hq & Hu & Hc & Hret).
    split; [exact Hq|]. split; [|split; [exact Hu|split; [exact Hc|]]].
    - rewrite count_repository_calls, Hq. reflexivity.
    - split; [exact Hret|]. intros signatures fname h.
      pose proof (upload_file_calls signatures fname h) as (Hq' & Hle & _).
      pose proof (upload_file_count W s signatures is_close fname h
                    (fun _ H => H)) as Hc'.
      rewrite !count_repository_calls. lia. }
  apply (upload_rule W s dists
           (fun rest h =>
              count is_package_is_uploaded h = 0 /\
              count is_close h = 0 /\
              count is_upload h + length rest = n)).
  - intros e h0 Hfd.
    pose proof (find_dists_fs W dists _ _ Hfd) as Hfs.
    unfold calls_post.
    rewrite !(fs_log_count _ h0) by
      (try exact Hfs; intros [] Hev; try discriminate Hev; reflexivity).
    repeat split; try lia; discriminate.
  - intros ds h0 what Hfd.
    pose proof (find_dists_fs W dists _ _ Hfd) as Hfs.
    assert (Hn : n = length (payloads_of ds)).
    { subst n. unfold resolved_payloads. rewrite Hfd. reflexivity. }
    unfold calls_post. rewrite !count_snoc.
    rewrite !(fs_log_count _ h0) by
      (try exact Hfs; intros [] Hev; try discriminate Hev; reflexivity).
    cbn [is_upload is_package_is_uploaded is_close].
    repeat split; try lia; discriminate.
  - intros ds fname rest h (Hq & Hc & Hu).
    pose proof (upload_file_calls (signatures_of ds) fname h)
      as (Hq' & Hle & Heq).
    pose proof (upload_file_count W s (signatures_of ds) is_close fname h
                  (fun _ H => H)) as Hc'.
    cbn [length] in Hu.
    destruct (upload_file W s (signatures_of ds) fname h) as [[e|u] tr];
      cbn [fst snd] in *.
    + unfold calls_post. repeat split; try lia; discriminate.
    + specialize (Heq u eq_refl). repeat split; lia.
  - intros h (Hq & Hc & Hu). cbn [length] in Hu.
    unfold calls_post. rewrite !count_snoc.
    cbn [is_upload is_package_is_uploaded is_close].
    repeat split; lia.
Qed.
End SkipExistingOff.

Lemma no_preflight_query_when_disabled_witness :
  count is_package_is_uploaded
    (snd (run (upload accepting (settings false true) ["dist/*"]))) = 0 /\
  count is_upload
    (snd (run (upload accepting (settings false true) ["dist/*"]))) = 2 /\
  count is_close
    (snd (run (upload accepting (settings false true) ["dist/*"]))) = 1.
Proof.
  destruct (no_preflight_query_when_disabled accepting (settings false true)
              eq_refl ["dist/*"]) as (Hq & _ & _ & _ & Hret & _).
  split; [exact Hq|]. apply Hret. vm_compute. reflexivity.
Defined.

Section SkipExistingOn.
Variable W : Collaborators.
Variable s : Settings.
Hypothesis Hon : skip_existing s = true.

Lemma upload_file_after_preflight (signatures : gmap string string)
    (fname : string) (h : history) :
  Every after_preflight h ->
  Every after_preflight (snd (upload_file W s signatures fname h)).
Proof.
  intros Hh. body_cases; try congruence; cbn [snd];
    after_preflight_chain (Every_snoc after_preflight).
Qed.

Lemma upload_after_preflight (dists : list string) :
  Every after_preflight (snd (run (upload W s dists))).
Proof.
  apply (upload_rule W s dists (fun _ h => Every after_preflight h)
           (fun _ tr => Every after_preflight tr)).
  - intros e h0 Hfd. apply Every_of_Forall.
    eapply Forall_impl; [exact (find_dists_fs W dists _ _ Hfd)|].
    intros ev Hev pre' p Hp. destruct ev; discriminate.
  - intros ds h0 what Hfd.
    assert (H0 : Every after_preflight h0).
    { apply Every_of_Forall.
      eapply Forall_impl; [exact (find_dists_fs W dists _ _ Hfd)|].
      intros ev Hev pre' p Hp. destruct ev; discriminate. }
    split; [|split]; after_preflight_chain (Every_snoc after_preflight).
  - intros ds fname rest h Hinv.
    pose proof (upload_file_after_preflight (signatures_of ds) fname h Hinv)
      as H.
    destruct (upload_file W s (signatures_of ds) fname h) as [[e|u] tr];
      exact H.
  - intros h Hinv. after_preflight_chain (Every_snoc after_preflight).
Qed.

(** C3.  With [skip_existing] on, the pass over a file whose package the
    repository reports as uploaded returns after three calls, the
    construction of the package, the pre-flight query and the printing of
    the skip message: no signature is attached, nothing is signed, nothing
    is uploaded.  The loop goes on from there: it ends if the file was the
    last one, and constructs the package of the next file otherwise.  And
    in any run a call on a signature comes right after the pre-flight
    query on the same package. *)
Theorem preflight_skip_short_circuits :
  (forall (signatures : gmap string string) (fname : string)
          (rest : list string) (h skipped : history)
          (package : PackageFile),
      from_filename W h fname (comment s) = Returns package ->
      package_is_uploaded W (h ++ [EvFromFilename fname (comment s)])
        package = Returns true ->
      skipped =
        h ++ [EvFromFilename fname (comment s);
              EvPackageIsUploaded package;
              EvPrint ("  Skipping " ++ basefilename package ++
                       " because it appears to already exist")%string] ->
      upload_file W s signatures fname h = (inr tt, skipped) /\
      upload_loop W s signatures (fname :: rest) h =
        upload_loop W s signatures rest skipped /\
      (rest = [] ->
         upload_loop W s signatures (fname :: rest) h = (inr tt, skipped)) /\
      (forall next rest',
          rest = next :: rest' ->
          exists more,
            snd (upload_loop W s signatures (fname :: rest) h) =
            skipped ++ EvFromFilename next (comment s) :: more)) /\
  (forall (dists : list string) (pre post : history) (ev : event)
          (package : PackageFile),
      snd (run (upload W s dists)) = pre ++ ev :: post ->
      signature_call_on ev = Some package ->
      exists pre', pre = pre' ++ [EvPackageIsUploaded package]).
Proof.
  split.
  - intros signatures fname rest h skipped package Hfrom Hup ->.
    assert (Hfile : upload_file W s signatures fname h =
                    (inr tt,
                     h ++ [EvFromFilename fname (comment s);
                           EvPackageIsUploaded package;
                           EvPrint (skip_message package)])).
    { unfold upload_file, skip_existing_check, print, bind, call.
      rewrite Hon. cbv beta. rewrite Hfrom. cbn [lift_outcome].
      rewrite Hup. cbn [lift_outcome]. rewrite <- !app_assoc. reflexivity. }
    change ("  Skipping " ++ basefilename package ++
            " because it appears to already exist")%string
      with (skip_message package).
    assert (Hloop : forall rest0,
               upload_loop W s signatures (fname :: rest0) h =
               upload_loop W s signatures rest0
                 (h ++ [EvFromFilename fname (comment s);
                        EvPackageIsUploaded package;
                        EvPrint (skip_message package)])).
    { intros rest0. rewrite upload_loop_cons, Hfile. reflexivity. }
    split; [exact Hfile|]. split; [apply Hloop|]. split.
    + intros ->. rewrite Hloop. reflexivity.
    + intros next rest' ->. rewrite Hloop. apply upload_loop_starts.
  - intros dists pre post ev package Htr Hev.
    exact (upload_after_preflight dists pre ev post Htr package Hev).
Qed.
End SkipExistingOn.

Lemma preflight_skip_short_circuits_witness :
  upload_file holding (settings true true) (signatures_of disk) whl [] =
    (inr tt,
     [EvFromFilename whl None; EvPackageIsUploaded (pkg whl);
      EvPrint "  Skipping pkg-1.0.whl because it appears to already exist"])
  /\
  exists more,
    snd (upload_loop holding (settings true true) (signatures_of disk)
           [whl; sdist] []) =
    [EvFromFilename whl None; EvPackageIsUploaded (pkg whl);
     EvPrint "  Skipping pkg-1.0.whl because it appears to already exist"]
      ++ EvFromFilename sdist None :: more.
Proof.
  destruct (proj1 (preflight_skip_short_circuits holding
                     (settings true true) eq_refl)
              (signatures_of disk) whl [sdist] []
              [EvFromFilename whl None; EvPackageIsUploaded (pkg whl);
               EvPrint
                 "  Skipping pkg-1.0.whl because it appears to already exist"]
              (pkg whl) eq_refl eq_refl eq_refl)
    as (Hfile & _ & _ & Hnext).
  split; [exact Hfile|]. exact (Hnext sdist [] eq_refl).
Defined.

End Preflight.

(* ===================================================================== *)
(** ** Duplicates and signatures, file by file *)
(* ===================================================================== *)

Module PerFile.
Import Orchestrator LogFacts BodyFacts ResolverFacts RunFacts Sample.

Section File.
Variable W : Collaborators.
Variable s : Settings.
Variable signatures : gmap string string.

(** C8.  The pass over a file that the pre-flight query reported absent,
    and whose upload is answered by a response that is no redirect and
    that [skip_upload] classifies as already there, returns after the
    upload and the printing of the skip message: the status check is not
    called.  The loop goes on from there: it ends if the file was the last
    one, and constructs the package of the next file otherwise. *)
Theorem duplicate_after_attempt_is_skipped (fname : string)
    (rest : list string) (h h2 skipped : history)
    (package0 package : PackageFile) (resp : Response) :
  from_filename W h fname (comment s) = Returns package0 ->
  package_is_uploaded W (h ++ [EvFromFilename fname (comment s)]) package0 =
    Returns false ->
  attach_signature W s signatures package0
    (h ++ [EvFromFilename fname (comment s); EvPackageIsUploaded package0]) =
    (inr package, h2) ->
  repository_upload W h2 package = Returns resp ->
  is_redirect resp = false ->
  Classifier.skip_upload resp (skip_existing s) package = true ->
  skipped =
    h2 ++ [EvUpload package;
           EvPrint ("  Skipping " ++ basefilename package0 ++
                    " because it appears to already exist")%string] ->
  upload_file W s signatures fname h = (inr tt, skipped) /\
  (forall ext, skipped = h ++ ext ->
     count is_check_status_code ext = 0 /\ count is_upload ext = 1) /\
  upload_loop W s signatures (fname :: rest) h =
    upload_loop W s signatures rest skipped /\
  (rest = [] ->
     upload_loop W s signatures (fname :: rest) h = (inr tt, skipped)) /\
  (forall next rest',
      rest = next :: rest' ->
      exists more,
        snd (upload_loop W s signatures (fname :: rest) h) =
        skipped ++ EvFromFilename next (comment s) :: more).
Proof.
  intros Hfrom Hquery Hsig Hup Hred Hskip ->.
  pose proof (ClassifierFacts.skip_upload_needs_flag _ _ _ Hskip) as Hon.
  change ("  Skipping " ++ basefilename package0 ++
          " because it appears to already exist")%string
    with (skip_message package0).
  assert (Hfile : upload_file W s signatures fname h =
                  (inr tt,
                   h2 ++ [EvUpload package;
                          EvPrint (skip_message package0)])).
  { unfold upload_file, skip_existing_check, print, bind.
    rewrite Hon. unfold call at 1 2. cbv beta.
    rewrite Hfrom. cbn [lift_outcome]. rewrite Hquery. cbn [lift_outcome].
    rewrite <- app_assoc. cbn [app]. rewrite Hsig.
    unfold call at 1. rewrite Hup. cbn [lift_outcome]. rewrite Hred.
    rewrite Hon in Hskip. rewrite Hskip. unfold call.
    cbn [lift_outcome]. rewrite <- !app_assoc. reflexivity. }
  assert (Hloop : forall rest0,
             upload_loop W s signatures (fname :: rest0) h =
             upload_loop W s signatures rest0
               (h2 ++ [EvUpload package;
                       EvPrint (skip_message package0)])).
  { intros rest0. rewrite upload_loop_cons, Hfile. reflexivity. }
  split; [exact Hfile|]. split; [|split; [apply Hloop|split]].
  - intros ext Hext.
    assert (Hcount : forall p,
               p (EvFromFilename fname (comment s)) = false ->
               p (EvPackageIsUploaded package0) = false ->
               (forall ev, is_signature_call ev = true -> p ev = false) ->
               p (EvPrint (skip_message package0)) = false ->
               count p ext = if p (EvUpload package) then 1 else 0).
    { intros p Hp1 Hp2 Hp3 Hp4.
      assert (H : count p (h ++ ext) =
                  count p h + if p (EvUpload package) then 1 else 0).
      { rewrite <- Hext.
        change (h2 ++ [EvUpload package; EvPrint (skip_message package0)])
          with (h2 ++ [EvUpload package] ++
                      [EvPrint (skip_message package0)]).
        rewrite app_assoc, !count_snoc, Hp4.
        destruct (attach_signature_log W s signatures _ _ _ _ Hsig)
          as [-> | (ev & -> & Hev)].
        - change (h ++ [EvFromFilename fname (comment s);
                        EvPackageIsUploaded package0])
            with (h ++ [EvFromFilename fname (comment s)] ++
                       [EvPackageIsUploaded package0]).
          rewrite app_assoc, !count_snoc, Hp1, Hp2. lia.
        - change (h ++ [EvFromFilename fname (comment s);
                        EvPackageIsUploaded package0])
            with (h ++ [EvFromFilename fname (comment s)] ++
                       [EvPackageIsUploaded package0]).
          rewrite app_assoc, !count_snoc, Hp1, Hp2, (Hp3 ev Hev). lia. }
      rewrite count_app in H. lia. }
    split; apply Hcount; try reflexivity;
      intros ev Hev; destruct ev; try reflexivity; discriminate Hev.
  - intros ->. rewrite Hloop. reflexivity.
  - intros next rest' ->. rewrite Hloop. apply upload_loop_starts.
Qed.

Lemma upload_file_one_signature (fname : string) (h : history) :
  count is_signature_call (snd (upload_file W s signatures fname h)) <=
  count is_signature_call h + 1.
Proof.
  body_cases; cbn [snd]; rewrite ?count_snoc;
    cbn [is_signature_call is_add_gpg_signature is_sign orb]; lia.
Qed.

Lemma upload_file_no_sign (fname : string) (h : history)
    (package0 : PackageFile) (sigfile : string) :
  from_filename W h fname (comment s) = Returns package0 ->
  signatures !! signed_basefilename package0 = Some sigfile ->
  count is_sign (snd (upload_file W s signatures fname h)) =
  count is_sign h.
Proof.
  intros Hfrom Hsig.
  body_cases; try congruence; cbn [snd]; rewrite ?count_snoc;
    cbn [is_sign]; lia.
Qed.

Lemma upload_file_attaches (fname : string) (h h1 : history)
    (package0 : PackageFile) (sigfile : string) :
  from_filename W h fname (comment s) = Returns package0 ->
  signatures !! signed_basefilename package0 = Some sigfile ->
  skip_existing_check W s package0
    (h ++ [EvFromFilename fname (comment s)]) = (inr false, h1) ->
  exists tail,
    snd (upload_file W s signatures fname h) =
      h1 ++ EvAddGpgSignature package0 sigfile
              (signed_basefilename package0) :: tail /\
    count is_signature_call tail = 0 /\
    (forall package1,
        add_gpg_signature W h1 package0 sigfile
          (signed_basefilename package0) = Returns package1 ->
        exists tail', tail = EvUpload package1 :: tail').
Proof.
  intros Hfrom Hsig Hcheck.
  unfold upload_file, bind. unfold call at 1. cbv beta.
  rewrite Hfrom. cbn [lift_outcome]. rewrite Hcheck.
  unfold attach_signature. rewrite Hsig.
  body_cases; cbn [snd]; rewrite <- ?app_assoc; cbn [app];
    eexists; (split; [reflexivity | split; [reflexivity|]]);
    intros package1 Hp;
    first [discriminate Hp | injection Hp as ->; eexists; reflexivity].
Qed.

Lemma upload_file_not_reached (fname : string) (h h1 : history)
    (package0 : PackageFile) (res : exn + bool) :
  from_filename W h fname (comment s) = Returns package0 ->
  skip_existing_check W s package0
    (h ++ [EvFromFilename fname (comment s)]) = (res, h1) ->
  res <> inr false ->
  count is_signature_call (snd (upload_file W s signatures fname h)) =
  count is_signature_call h.
Proof.
  intros Hfrom Hcheck Hres.
  assert (Hh1 : count is_signature_call h1 = count is_signature_call h).
  { destruct (skip_existing_check_log W s _ _ _ _ Hcheck) as [-> | ->];
      rewrite !count_snoc; cbn; lia. }
  unfold upload_file, bind. unfold call at 1. cbv beta.
  rewrite Hfrom. cbn [lift_outcome]. rewrite Hcheck.
  destruct res as [e | [|]]; cbn [snd].
  - exact Hh1.
  - unfold print, call. cbn [snd]. rewrite count_snoc, Hh1. cbn. lia.
  - contradiction Hres. reflexivity.
Qed.

Lemma attach_signature_entry (package0 : PackageFile) (sigfile : string)
    (h1 : history) :
  signatures !! signed_basefilename package0 = Some sigfile ->
  attach_signature W s signatures package0 h1 =
  (lift_outcome
     (add_gpg_signature W h1 package0 sigfile (signed_basefilename package0)),
   h1 ++ [EvAddGpgSignature package0 sigfile (signed_basefilename package0)]).
Proof.
  intros Hsig. unfold attach_signature. rewrite Hsig. reflexivity.
Qed.

(** C6.  A file makes at most one call on a signature.  When the
    signature map has an entry for the signed name of its package, [sign]
    is not called, whatever the [sign] setting, and the signature step
    (the [if]/[elif] on [signed_name]) is the one call of
    [add_gpg_signature] with the file of that entry.  In the pass over a
    file that reaches that step, that call follows the pre-flight check,
    no other call on a signature follows it, and the package it returns is
    the one uploaded next.  A file that does not reach the step, skipped
    by the pre-flight check or stopped by it, has no call on a signature
    at all. *)
Theorem supplied_signature_is_attached (fname : string) (h ext : history) :
  snd (upload_file W s signatures fname h) = h ++ ext ->
  count is_signature_call ext <= 1 /\
  (forall (package0 : PackageFile) (sigfile : string),
      from_filename W h fname (comment s) = Returns package0 ->
      signatures !! signed_basefilename package0 = Some sigfile ->
      count is_sign ext = 0 /\
      (forall h1,
          attach_signature W s signatures package0 h1 =
          (lift_outcome
             (add_gpg_signature W h1 package0 sigfile
                (signed_basefilename package0)),
           h1 ++ [EvAddGpgSignature package0 sigfile
                    (signed_basefilename package0)])) /\
      (forall h1,
          skip_existing_check W s package0
            (h ++ [EvFromFilename fname (comment s)]) = (inr false, h1) ->
          exists tail,
            h ++ ext =
              h1 ++ EvAddGpgSignature package0 sigfile
                      (signed_basefilename package0) :: tail /\
            count is_signature_call tail = 0 /\
            (forall package1,
                add_gpg_signature W h1 package0 sigfile
                  (signed_basefilename package0) = Returns package1 ->
                exists tail', tail = EvUpload package1 :: tail')) /\
      (forall res h1,
          skip_existing_check W s package0
            (h ++ [EvFromFilename fname (comment s)]) = (res, h1) ->
          res <> inr false ->
          count is_signature_call ext = 0)).
Proof.
  intros Hext. split.
  - pose proof (upload_file_one_signature fname h) as H.
    rewrite Hext, count_app in H. lia.
  - intros package0 sigfile Hfrom Hsig. split; [|split; [|split]].
    + pose proof (upload_file_no_sign fname h package0 sigfile Hfrom Hsig)
        as H.
      rewrite Hext, count_app in H. lia.
    + intros h1. apply attach_signature_entry, Hsig.
    + intros h1 Hcheck. rewrite <- Hext.
      exact (upload_file_attaches fname h h1 package0 sigfile
               Hfrom Hsig Hcheck).
    + intros res h1 Hcheck Hres.
      pose proof (upload_file_not_reached fname h h1 package0 res
                    Hfrom Hcheck Hres) as H.
      rewrite Hext, count_app in H. lia.
Qed.
End File.

Lemma duplicate_after_attempt_is_skipped_witness :
  upload_file conflicting (settings true false) (signatures_of disk) whl [] =
    (inr tt,
     [EvFromFilename whl None; EvPackageIsUploaded (pkg whl);
      EvUpload (pkg whl);
      EvPrint "  Skipping pkg-1.0.whl because it appears to already exist"])
  /\
  exists more,
    snd (upload_loop conflicting (settings true false) (signatures_of disk)
           [whl; sdist] []) =
    [EvFromFilename whl None; EvPackageIsUploaded (pkg whl);
     EvUpload (pkg whl);
     EvPrint "  Skipping pkg-1.0.whl because it appears to already exist"]
      ++ EvFromFilename sdist None :: more.
Proof.
  destruct (duplicate_after_attempt_is_skipped conflicting
              (settings true false) (signatures_of disk) whl [sdist] []
              [EvFromFilename whl None; EvPackageIsUploaded (pkg whl)]
              [EvFromFilename whl None; EvPackageIsUploaded (pkg whl);
               EvUpload (pkg whl);
               EvPrint
                 "  Skipping pkg-1.0.whl because it appears to already exist"]
              (pkg whl) (pkg whl) (answer 409 "Conflict"))
    as (Hfile & _ & _ & _ & Hnext).
  - reflexivity.
  - reflexivity.
  - vm_compute. reflexivity.
  - reflexivity.
  - reflexivity.
  - reflexivity.
  - reflexivity.
  - split; [exact Hfile|]. exact (Hnext sdist [] eq_refl).
Defined.

Lemma supplied_signature_is_attached_witness :
  count is_sign
    [EvFromFilename sdist None;
     EvAddGpgSignature (pkg sdist) "dist/pkg-1.0.tar.gz.asc"
       "pkg-1.0.tar.gz.asc";
     EvUpload (signed (pkg sdist) "pkg-1.0.tar.gz.asc");
     EvCheckStatusCode (answer 200 "OK") false] = 0 /\
  exists tail,
    [] ++
    [EvFromFilename sdist None;
     EvAddGpgSignature (pkg sdist) "dist/pkg-1.0.tar.gz.asc"
       "pkg-1.0.tar.gz.asc";
     EvUpload (signed (pkg sdist) "pkg-1.0.tar.gz.asc");
     EvCheckStatusCode (answer 200 "OK") false] =
    [EvFromFilename sdist None] ++
    EvAddGpgSignature (pkg sdist) "dist/pkg-1.0.tar.gz.asc"
      (signed_basefilename (pkg sdist)) :: tail /\
    count is_signature_call tail = 0 /\
    exists tail',
      tail = EvUpload (signed (pkg sdist) "pkg-1.0.tar.gz.asc") :: tail'.
Proof.
  destruct (supplied_signature_is_attached accepting (settings false true)
              (signatures_of disk) sdist []
              [EvFromFilename sdist None;
               EvAddGpgSignature (pkg sdist) "dist/pkg-1.0.tar.gz.asc"
                 "pkg-1.0.tar.gz.asc";
               EvUpload (signed (pkg sdist) "pkg-1.0.tar.gz.asc");
               EvCheckStatusCode (answer 200 "OK") false])
    as [_ Hentry].
  - vm_compute. reflexivity.
  - destruct (Hentry (pkg sdist) "dist/pkg-1.0.tar.gz.asc")
      as (Hsign & _ & Hreach & _).
    + reflexivity.
    + vm_compute. reflexivity.
    + split; [exact Hsign|].
      destruct (Hreach [EvFromFilename sdist None] eq_refl)
        as (tail & Hlog & Htail & Hnext).
      exists tail. split; [exact Hlog|]. split; [exact Htail|].
      exact (Hnext (signed (pkg sdist) "pkg-1.0.tar.gz.asc") eq_refl).
Defined.

End PerFile.

(* ===================================================================== *)
(** ** The command, with the resolved files at hand *)
(* ===================================================================== *)

Module CommandFacts.
Import Orchestrator LogFacts BodyFacts ResolverFacts RunFacts Trace.

Section Rule.
Variable W : Collaborators.
Variable s : Settings.

(** The rule of the whole command once more, where the invariant of the
    loop may speak of the list [find_dists] returned. *)
Lemma upload_rule_at (dists : list string)
    (Post : exn + unit -> history -> Prop) :
  (forall e h0, find_dists W dists [] = (inl e, h0) -> Post (inl e) h0) ->
  (forall ds h0,
     find_dists W dists [] = (inr ds, h0) ->
     let h1 := h0 ++ [EvCheckRepositoryUrl] in
     let h2 := h1 ++ [EvPrint (banner s)] in
     let h3 := h2 ++ [EvCreateRepository] in
     exists Inv : list string -> history -> Prop,
       (forall what,
          check_repository_url W h0 = Raises what ->
          Post (inl (Foreign what)) h1) /\
       (forall u what,
          check_repository_url W h0 = Returns u ->
          create_repository W h2 = Raises what ->
          Post (inl (Foreign what)) h3) /\
       (forall u u',
          check_repository_url W h0 = Returns u ->
          create_repository W h2 = Returns u' ->
          Inv (payloads_of ds) h3) /\
       (forall fname rest h, Inv (fname :: rest) h ->
          match upload_file W s (signatures_of ds) fname h with
          | (inr _, tr) => Inv rest tr
          | (inl e, tr) => Post (inl e) tr
          end) /\
       (forall h, Inv [] h ->
          Post (lift_outcome (repository_close W h)) (h ++ [EvClose]))) ->
  Post (fst (run (upload W s dists))) (snd (run (upload W s dists))).
Proof.
  intros Hfd Hrun. rewrite upload_run.
  destruct (find_dists W dists []) as [[e|ds] h0] eqn:Efd;
    [exact (Hfd e h0 eq_refl)|].
  destruct (Hrun ds h0 eq_refl)
    as (Inv & Hcheck & Hcreate & Hinv & Hbody & Hclose).
  cbv zeta in *. fold (banner s).
  destruct (check_repository_url W h0) as [what|u] eqn:Echeck;
    [exact (Hcheck what eq_refl)|].
  destruct (create_repository W _) as [what|u'] eqn:Ecreate;
    [exact (Hcreate u what eq_refl eq_refl)|].
  pose proof (upload_loop_rule W s (signatures_of ds) Inv
                (fun e tr => Post (inl e) tr) Hbody
                (payloads_of ds) _ (Hinv u u' eq_refl eq_refl)) as Hloop.
  destruct (upload_loop W s _ _ _) as [[e|u''] h4]; cbn [fst snd].
  - exact Hloop.
  - apply Hclose, Hloop.
Qed.

(** The same for a property every call of the log is to have. *)
Lemma upload_every (dists : list string) (phi : history -> event -> Prop) :
  holds_of_fs_queries phi ->
  (forall pre, phi pre EvCheckRepositoryUrl) ->
  (forall pre, phi pre (EvPrint (banner s))) ->
  (forall pre, phi pre EvCreateRepository) ->
  (forall pre, phi pre EvClose) ->
  (forall ds h0 fname h,
     find_dists W dists [] = (inr ds, h0) ->
     Every phi h ->
     Every phi (snd (upload_file W s (signatures_of ds) fname h))) ->
  Every phi (snd (run (upload W s dists))).
Proof.
  intros Hfs Hcheck Hprint Hcreate Hclose Hbody.
  assert (H0 : forall res h0,
             find_dists W dists [] = (res, h0) -> Every phi h0).
  { intros res h0 Hfd. apply Every_of_Forall.
    eapply Forall_impl; [exact (find_dists_fs W dists _ _ Hfd)|].
    intros ev Hev pre. apply Hfs, Hev. }
  apply (upload_rule_at dists (fun _ tr => Every phi tr)).
  - intros e h0 Hfd. exact (H0 _ _ Hfd).
  - intros ds h0 Hfd. exists (fun _ h => Every phi h).
    pose proof (H0 _ _ Hfd) as Hh0.
    cbv zeta. split; [|split; [|split; [|split]]].
    + intros what _. repeat (apply Every_snoc; auto).
    + intros u what _ _. repeat (apply Every_snoc; auto).
    + intros u u' _ _. repeat (apply Every_snoc; auto).
    + intros fname rest h Hh.
      pose proof (Hbody ds h0 fname h Hfd Hh) as H.
      destruct (upload_file W s (signatures_of ds) fname h) as [[e|u] tr];
        exact H.
    + intros h Hh. apply Every_snoc; auto.
Qed.
End Rule.
End CommandFacts.

(* ===================================================================== *)
(** ** Exceptions of the collaborators *)
(* ===================================================================== *)

Module Propagation.
Import Orchestrator LogFacts BodyFacts ResolverFacts RunFacts Trace.
Import CommandFacts Sample.

Section Raise.
Variable W : Collaborators.
Variable s : Settings.

Lemma raise_post_every (res : exn + unit) (tr : history) :
  Every (returned W) tr -> raise_post W res tr.
Proof.
  intros H pre ev post what -> Hr.
  specialize (H pre ev post eq_refl). unfold returned in H. congruence.
Qed.

Lemma raise_post_snoc (res : exn + unit) (h : history) (ev : event) :
  Every (returned W) h ->
  (forall what, raised W h ev = Some what -> res = inl (Foreign what)) ->
  raise_post W res (h ++ [ev]).
Proof.
  intros Hh Hev pre ev' post what Htr Hr.
  apply snoc_split in Htr as [(-> & -> & ->) | (post' & _ & ->)].
  - split; [reflexivity | exact (Hev what Hr)].
  - specialize (Hh pre ev' post' eq_refl). unfold returned in Hh. congruence.
Qed.

Lemma upload_file_raise (signatures : gmap string string) (fname : string)
    (h : history) :
  Every (returned W) h ->
  match upload_file W s signatures fname h with
  | (inr _, tr) => Every (returned W) tr
  | (inl e, tr) => raise_post W (inl e) tr
  end.
Proof.
  intros Hh. body_cases.
  all: first
    [ solve [every_chain (Every_snoc (returned W)) ltac:(returned_event)]
    | solve [apply raise_post_every;
             every_chain (Every_snoc (returned W)) ltac:(returned_event)]
    | apply raise_post_snoc;
      [ solve [every_chain (Every_snoc (returned W)) ltac:(returned_event)]
      | raised_event ] ].
Qed.

(** X7.  An exception raised by a collaborator is not caught: the call
    that raised is the last call of the run, and the exception is the
    result of [upload].  A run that returns had every call return. *)
Theorem collaborator_exception_ends_run (dists : list string) :
  (forall pre ev post what,
      snd (run (upload W s dists)) = pre ++ ev :: post ->
      raised W pre ev = Some what ->
      post = [] /\
      fst (run (upload W s dists)) = inl (Foreign what)) /\
  (fst (run (upload W s dists)) = inr tt ->
   forall pre ev post,
     snd (run (upload W s dists)) = pre ++ ev :: post ->
     raised W pre ev = None).
Proof.
  cut (raise_post W (fst (run (upload W s dists)))
         (snd (run (upload W s dists)))).
  { intros Hpost. split; [exact Hpost|].
    intros Hret pre ev post Htr.
    destruct (raised W pre ev) as [what|] eqn:Hr; [|reflexivity].
    destruct (Hpost pre ev post what Htr Hr) as [_ Hres].
    rewrite Hret in Hres. discriminate Hres. }
  assert (Hfs : forall res h0,
             find_dists W dists [] = (res, h0) -> Every (returned W) h0).
  { intros res h0 Hfd. apply Every_of_Forall.
    eapply Forall_impl; [exact (find_dists_fs W dists _ _ Hfd)|].
    intros ev Hev pre. destruct ev; try discriminate Hev; reflexivity. }
  apply (upload_rule_at W s dists).
  - intros e h0 Hfd. apply raise_post_every. exact (Hfs _ _ Hfd).
  - intros ds h0 Hfd. exists (fun _ h => Every (returned W) h).
    pose proof (Hfs _ _ Hfd) as Hh0.
    cbv zeta. split; [|split; [|split; [|split]]].
    + intros what Echeck. apply raise_post_snoc; [exact Hh0 | raised_event].
    + intros u what Echeck Ecreate.
      apply raise_post_snoc; [|raised_event].
      every_chain (Every_snoc (returned W)) ltac:(returned_event).
    + intros u u' Echeck Ecreate.
      every_chain (Every_snoc (returned W)) ltac:(returned_event).
    + intros fname rest h Hh. apply upload_file_raise, Hh.
    + intros h Hh. destruct (repository_close W h) as [what|u] eqn:Eclose.
      * apply raise_post_snoc; [exact Hh | raised_event].
      * apply raise_post_every.
        every_chain (Every_snoc (returned W)) ltac:(returned_event).
Qed.
End Raise.

Lemma collaborator_exception_ends_run_witness :
  fst (run (upload failing (settings false false) ["dist/*"])) =
    inl (Foreign "HTTPError") /\
  raised accepting [] EvCheckRepositoryUrl = None.
Proof.
  split.
  - refine (proj2 (proj1 (collaborator_exception_ends_run failing
                            (settings false false) ["dist/*"])
                     (removelast
                        (snd (run (upload failing (settings false false)
                                     ["dist/*"]))))
                     (EvCheckStatusCode
                        (answer 500 "Internal Server Error") false)
                     [] "HTTPError" _ _)).
    + vm_compute. reflexivity.
    + reflexivity.
  - refine (proj2 (collaborator_exception_ends_run accepting
                     (settings false false) [whl]) _
              [EvExists whl] EvCheckRepositoryUrl
              (tl (tl (snd (run (upload accepting (settings false false)
                                   [whl]))))) _).
    + vm_compute. reflexivity.
    + vm_compute. reflexivity.
Defined.

End Propagation.

(* ===================================================================== *)
(** ** Which files are processed, and in which order *)
(* ===================================================================== *)

Module Processing.
Import Orchestrator LogFacts BodyFacts ResolverFacts RunFacts Trace.
Import CommandFacts Sample.

Lemma constructed_snoc (h : history) (ev : event) :
  constructed (h ++ [ev]) =
  constructed h ++
    match ev with EvFromFilename f _ => [f] | _ => [] end.
Proof.
  unfold constructed. rewrite flat_map_app. cbn [flat_map].
  rewrite app_nil_r. reflexivity.
Qed.

Lemma constructed_fs (h : history) :
  Forall (fun ev => is_fs_query ev = true) h -> constructed h = [].
Proof.
  induction 1 as [|ev h Hev _ IH]; [reflexivity|].
  unfold constructed in *. cbn [flat_map]. rewrite IH.
  destruct ev; try discriminate Hev; reflexivity.
Qed.

Lemma payloads_not_asc (ds : list string) :
  Forall (fun f => Str.endswith f ".asc" = false) (payloads_of ds).
Proof.
  apply List.Forall_forall. intros f Hf. apply filter_In in Hf as [_ Hf].
  unfold is_asc in Hf. destruct (Str.endswith f ".asc");
    [discriminate Hf | reflexivity].
Qed.

Section Order.
Variable W : Collaborators.
Variable s : Settings.

Lemma upload_file_constructed (signatures : gmap string string)
    (fname : string) (h : history) :
  constructed (snd (upload_file W s signatures fname h)) =
  constructed h ++ [fname].
Proof.
  body_cases; cbn [snd]; rewrite !constructed_snoc, <- ?app_assoc;
    cbn [app]; rewrite ?app_nil_r; reflexivity.
Qed.

(** X3.  The files a run constructs a package for are the first payload
    files, in the order of the payload list, and all of them when the run
    returns.  No file whose name ends in [.asc] is among them. *)
Theorem payloads_processed_in_order (dists : list string) :
  (exists rest,
      resolved_payloads W dists =
      constructed (snd (run (upload W s dists))) ++ rest) /\
  (fst (run (upload W s dists)) = inr tt ->
     constructed (snd (run (upload W s dists))) =
     resolved_payloads W dists) /\
  Forall (fun f => Str.endswith f ".asc" = false)
    (constructed (snd (run (upload W s dists)))).
Proof.
  set (P := fun (res : exn + unit) (tr : history) =>
              (exists rest, resolved_payloads W dists = constructed tr ++ rest)
              /\ (res = inr tt -> constructed tr = resolved_payloads W dists)).
  cut (P (fst (run (upload W s dists))) (snd (run (upload W s dists)))).
  { intros [[rest Hpre] Hret]. split; [exists rest; exact Hpre|].
    split; [exact Hret|].
    assert (Hall : Forall (fun f => Str.endswith f ".asc" = false)
                     (resolved_payloads W dists)).
    { unfold resolved_payloads.
      destruct (fst (find_dists W dists [])) as [e|ds];
        [constructor | apply payloads_not_asc]. }
    rewrite Hpre in Hall. apply Forall_app in Hall. tauto. }
  assert (Hnone : forall e tr,
             constructed tr = [] ->
             P (inl e) tr).
  { intros e tr Htr. split; [|discriminate].
    exists (resolved_payloads W dists). rewrite Htr. reflexivity. }
  apply (upload_rule_at W s dists P).
  - intros e h0 Hfd. apply Hnone, constructed_fs.
    exact (find_dists_fs W dists _ _ Hfd).
  - intros ds h0 Hfd.
    exists (fun rest h => resolved_payloads W dists = constructed h ++ rest).
    pose proof (constructed_fs h0 (find_dists_fs W dists _ _ Hfd)) as H0.
    assert (Hds : resolved_payloads W dists = payloads_of ds)
      by (unfold resolved_payloads; rewrite Hfd; reflexivity).
    cbv zeta. split; [|split; [|split; [|split]]].
    + intros what _. apply Hnone. rewrite constructed_snoc, H0. reflexivity.
    + intros u what _ _. apply Hnone.
      rewrite !constructed_snoc, H0. reflexivity.
    + intros u u' _ _. rewrite !constructed_snoc, H0. exact Hds.
    + intros fname rest h Hh.
      pose proof (upload_file_constructed (signatures_of ds) fname h) as Hc.
      destruct (upload_file W s (signatures_of ds) fname h) as [[e|u] tr];
        cbn [snd] in Hc.
      * split; [|discriminate]. exists rest.
        rewrite Hc, <- app_assoc. exact Hh.
      * rewrite Hc, <- app_assoc. exact Hh.
    + intros h Hh. rewrite app_nil_r in Hh. split.
      * exists []. rewrite constructed_snoc, !app_nil_r. exact Hh.
      * intros _. rewrite constructed_snoc, app_nil_r. symmetry. exact Hh.
Qed.
End Order.

Lemma payloads_processed_in_order_witness :
  constructed
    (snd (run (upload accepting (settings false false) ["dist/*"]))) =
  [whl; sdist].
Proof.
  refine (proj1 (proj2 (payloads_processed_in_order accepting
                          (settings false false) ["dist/*"])) _).
  vm_compute. reflexivity.
Defined.

End Processing.

(* ===================================================================== *)
(** ** The signature map *)
(* ===================================================================== *)

Module SignatureMap.
Import Orchestrator Trace Sample.

(** [dict(...)] over the pairs of a list, from the dictionary [m]. *)
Lemma pairs_lookup (l : list string) (m : gmap string string)
    (k d : string) :
  fold_left (fun m d => <[Str.basename d := d]> m) l m !! k = Some d ->
  (In d l /\ Str.basename d = k) \/ m !! k = Some d.
Proof.
  revert m. induction l as [|x l IH]; intros m H; [right; exact H|].
  cbn [fold_left] in H. destruct (IH _ H) as [[Hin Hk] | Hm].
  - left. split; [right; exact Hin | exact Hk].
  - destruct (decide (Str.basename x = k)) as [Hx | Hx].
    + rewrite <- Hx, lookup_insert_eq in Hm. injection Hm as <-.
      left. split; [left; reflexivity | exact Hx].
    + rewrite lookup_insert_ne in Hm by exact Hx. right. exact Hm.
Qed.

Lemma pairs_keep (l : list string) (m : gmap string string) (k : string) :
  Forall (fun d => Str.basename d <> k) l ->
  fold_left (fun m d => <[Str.basename d := d]> m) l m !! k = m !! k.
Proof.
  intros H. revert m. induction H as [|x l Hx _ IH]; intros m;
    [reflexivity|].
  cbn [fold_left]. rewrite IH. apply lookup_insert_ne, Hx.
Qed.

Lemma pairs_bound (l : list string) (m : gmap string string) (k : string) :
  is_Some (m !! k) \/ Exists (fun d => Str.basename d = k) l ->
  is_Some (fold_left (fun m d => <[Str.basename d := d]> m) l m !! k).
Proof.
  revert m. induction l as [|x l IH]; intros m H.
  - destruct H as [H | H]; [exact H | inversion H].
  - cbn [fold_left]. apply IH.
    destruct (decide (Str.basename x = k)) as [Hx | Hx].
    + left. rewrite <- Hx, lookup_insert_eq. eauto.
    + rewrite lookup_insert_ne by exact Hx.
      destruct H as [H | H]; [left; exact H|].
      right. inversion H; subst; [contradiction | assumption].
Qed.

Lemma signatures_of_lookup (dists : list string) (k d : string) :
  signatures_of dists !! k = Some d ->
  In d dists /\ Str.endswith d ".asc" = true /\ Str.basename d = k.
Proof.
  unfold signatures_of. intros H.
  apply pairs_lookup in H as [[Hin Hk] | H].
  - apply filter_In in Hin as [Hin Hasc]. auto.
  - rewrite lookup_empty in H. discriminate H.
Qed.

(** X1.  The signature map is keyed by base names of the [.asc] files and
    of nothing else: an entry maps a key to a file of the list whose name
    ends in [.asc] and whose base name is the key, and every [.asc] file of
    the list has its base name among the keys. *)
Theorem signature_map_entries (dists : list string) :
  (forall k d,
      signatures_of dists !! k = Some d ->
      In d dists /\ Str.endswith d ".asc" = true /\ Str.basename d = k) /\
  (forall d,
      In d dists ->
      Str.endswith d ".asc" = true ->
      exists d',
        signatures_of dists !! Str.basename d = Some d' /\
        Str.basename d' = Str.basename d).
Proof.
  split; [apply signatures_of_lookup|].
  intros d Hin Hasc.
  assert (Hsome : is_Some (signatures_of dists !! Str.basename d)).
  { unfold signatures_of. apply pairs_bound. right.
    apply List.Exists_exists. exists d. split; [|reflexivity].
    apply filter_In. auto. }
  destruct Hsome as [d' Hd']. exists d'. split; [exact Hd'|].
  apply (signatures_of_lookup dists _ _ Hd').
Qed.

Lemma signature_map_entries_witness :
  exists d',
    signatures_of disk !! Str.basename "dist/pkg-1.0.tar.gz.asc" = Some d' /\
    Str.basename d' = Str.basename "dist/pkg-1.0.tar.gz.asc".
Proof.
  refine (proj2 (signature_map_entries disk) "dist/pkg-1.0.tar.gz.asc" _ _).
  - right. left. reflexivity.
  - reflexivity.
Defined.

(** X2.  When several [.asc] files of the list have the same base name,
    the last one is the one the map holds. *)
Theorem last_signature_wins (before after : list string) (d : string) :
  Str.endswith d ".asc" = true ->
  Forall (fun d' => Str.endswith d' ".asc" = true ->
                    Str.basename d' <> Str.basename d) after ->
  signatures_of (before ++ d :: after) !! Str.basename d = Some d.
Proof.
  intros Hasc Hafter. unfold signatures_of.
  rewrite List.filter_app. cbn [List.filter]. unfold is_asc at 2.
  rewrite Hasc, fold_left_app. cbn [fold_left].
  rewrite pairs_keep; [apply lookup_insert_eq|].
  apply List.Forall_forall. intros d' Hd'. apply filter_In in Hd' as [Hin H].
  rewrite List.Forall_forall in Hafter. exact (Hafter d' Hin H).
Qed.

Lemma last_signature_wins_witness :
  signatures_of (["a/pkg.tar.gz.asc"] ++ "b/pkg.tar.gz.asc" :: ["pkg.tar.gz"])
    !! Str.basename "b/pkg.tar.gz.asc" = Some "b/pkg.tar.gz.asc".
Proof.
  apply (last_signature_wins ["a/pkg.tar.gz.asc"] ["pkg.tar.gz"]
           "b/pkg.tar.gz.asc").
  - reflexivity.
  - constructor; [|constructor]. intros H. discriminate H.
Defined.

End SignatureMap.

(* ===================================================================== *)
(** ** Signing and attaching *)
(* ===================================================================== *)

Module Signing.
Import Orchestrator LogFacts BodyFacts ResolverFacts RunFacts Trace.
Import CommandFacts Sample.

Section Sign.
Variable W : Collaborators.
Variable s : Settings.

Lemma upload_file_sign_off (signatures : gmap string string)
    (fname : string) (h : history) :
  sign s = false ->
  count is_sign (snd (upload_file W s signatures fname h)) = count is_sign h.
Proof.
  intros Hoff. body_cases; try congruence; cbn [snd]; rewrite ?count_snoc;
    cbn [is_sign]; lia.
Qed.

Lemma upload_file_attached (signatures : gmap string string)
    (fname : string) (h : history) :
  Every (attached_from_map signatures) h ->
  Every (attached_from_map signatures)
    (snd (upload_file W s signatures fname h)).
Proof.
  intros Hh. body_cases; cbn [snd];
    every_chain (Every_snoc (attached_from_map signatures))
      ltac:(attached_event).
Qed.

(** X8.  With the [sign] setting off, [package.sign] is never called. *)
Theorem never_signs_when_disabled (dists : list string) :
  sign s = false ->
  count is_sign (snd (run (upload W s dists))) = 0.
Proof.
  intros Hoff.
  apply (upload_rule_at W s dists (fun _ tr => count is_sign tr = 0)).
  - intros e h0 Hfd.
    apply fs_log_count with (2 := find_dists_fs W dists _ _ Hfd).
    intros [] Hev; try discriminate Hev; reflexivity.
  - intros ds h0 Hfd. exists (fun _ h => count is_sign h = 0).
    assert (H0 : count is_sign h0 = 0).
    { apply fs_log_count with (2 := find_dists_fs W dists _ _ Hfd).
      intros [] Hev; try discriminate Hev; reflexivity. }
    cbv zeta. split; [|split; [|split; [|split]]].
    + intros what _. rewrite count_snoc, H0. reflexivity.
    + intros u what _ _. rewrite !count_snoc, H0. reflexivity.
    + intros u u' _ _. rewrite !count_snoc, H0. reflexivity.
    + intros fname rest h Hh.
      pose proof (upload_file_sign_off (signatures_of ds) fname h Hoff) as H.
      destruct (upload_file W s (signatures_of ds) fname h) as [[e|u] tr];
        cbn [snd] in H; lia.
    + intros h Hh. rewrite count_snoc, Hh. reflexivity.
Qed.

(** X9.  A signature is only ever attached from a file that the
    resolution of the input produced, whose name ends in [.asc] and whose
    base name is the signed name of the package; it is attached under that
    signed name. *)
Theorem attached_signature_is_supplied (dists : list string)
    (pre post : history) (package : PackageFile) (sigfile name : string) :
  snd (run (upload W s dists)) =
    pre ++ EvAddGpgSignature package sigfile name :: post ->
  name = signed_basefilename package /\
  In sigfile (resolved W dists) /\
  Str.endswith sigfile ".asc" = true /\
  Str.basename sigfile = signed_basefilename package.
Proof.
  intros Htr.
  assert (H : Every (attached_from_map (signatures_of (resolved W dists)))
                (snd (run (upload W s dists)))).
  { apply upload_every.
    all: try (intros pre' p sf n Hev; discriminate Hev).
    - intros pre' ev Hev p sf n Hp. destruct ev; discriminate.
    - intros ds h0 fname h Hfd Hh.
      assert (Hds : resolved W dists = ds)
        by (unfold resolved; rewrite Hfd; reflexivity).
      rewrite Hds in *. apply upload_file_attached, Hh. }
  destruct (H pre _ post Htr package sigfile name eq_refl) as [Hname Hsig].
  apply SignatureMap.signatures_of_lookup in Hsig as (Hin & Hasc & Hbase).
  subst name. auto.
Qed.
End Sign.

Lemma never_signs_when_disabled_witness :
  count is_sign
    (snd (run (upload accepting (settings false false) ["dist/*"]))) = 0.
Proof.
  exact (never_signs_when_disabled accepting (settings false false)
           ["dist/*"] eq_refl).
Defined.

Lemma attached_signature_is_supplied_witness :
  "pkg-1.0.tar.gz.asc" = signed_basefilename (pkg sdist) /\
  In "dist/pkg-1.0.tar.gz.asc" (resolved accepting ["dist/*"]) /\
  Str.endswith "dist/pkg-1.0.tar.gz.asc" ".asc" = true /\
  Str.basename "dist/pkg-1.0.tar.gz.asc" = signed_basefilename (pkg sdist).
Proof.
  refine (attached_signature_is_supplied accepting (settings false false)
            ["dist/*"]
            (firstn 9 (snd (run (upload accepting (settings false false)
                                   ["dist/*"]))))
            (skipn 10 (snd (run (upload accepting (settings false false)
                                   ["dist/*"]))))
            (pkg sdist) "dist/pkg-1.0.tar.gz.asc" "pkg-1.0.tar.gz.asc" _).
  vm_compute. reflexivity.
Defined.

End Signing.

(* ===================================================================== *)
(** ** The status check *)
(* ===================================================================== *)

Module Checking.
Import Orchestrator LogFacts BodyFacts ResolverFacts RunFacts Trace.
Import CommandFacts Sample.

Section Check.
Variable W : Collaborators.
Variable s : Settings.

Lemma upload_file_checked (signatures : gmap string string)
    (fname : string) (h : history) :
  Every (checked_after_upload W s) h ->
  Every (checked_after_upload W s)
    (snd (upload_file W s signatures fname h)).
Proof.
  intros Hh. body_cases; cbn [snd];
    every_chain (Every_snoc (checked_after_upload W s))
      ltac:(checked_event).
Qed.

(** X10.  [check_status_code] is called only on the response of the upload
    made just before it, with the [verbose] setting, and only when that
    response is no redirect and [skip_upload] did not classify it as a
    duplicate. *)
Theorem status_check_follows_upload (dists : list string)
    (pre post : history) (resp : Response) (v : bool) :
  snd (run (upload W s dists)) = pre ++ EvCheckStatusCode resp v :: post ->
  exists pre' package,
    pre = pre' ++ [EvUpload package] /\
    repository_upload W pre' package = Returns resp /\
    is_redirect resp = false /\
    Classifier.skip_upload resp (skip_existing s) package = false /\
    v = verbose s.
Proof.
  intros Htr.
  assert (H : Every (checked_after_upload W s)
                (snd (run (upload W s dists)))).
  { apply upload_every.
    all: try (intros pre' r v' Hev; discriminate Hev).
    - intros pre' ev Hev r v' Hp. destruct ev; discriminate.
    - intros ds h0 fname h Hfd Hh. apply upload_file_checked, Hh. }
  exact (H pre _ post Htr resp v eq_refl).
Qed.

Hypothesis Hoff : skip_existing s = false.

Lemma upload_file_prints_nothing (signatures : gmap string string)
    (fname : string) (h : history) :
  Every (prints_banner s) h ->
  Every (prints_banner s) (snd (upload_file W s signatures fname h)).
Proof.
  intros Hh. body_cases; try congruence; try skip_upload_off; cbn [snd];
    every_chain (Every_snoc (prints_banner s)) ltac:(silent_event).
Qed.

Lemma upload_file_checks (signatures : gmap string string) (fname : string)
    (h : history) :
  forall u, fst (upload_file W s signatures fname h) = inr u ->
    count is_check_status_code (snd (upload_file W s signatures fname h)) =
    count is_check_status_code h + 1.
Proof.
  body_cases; try congruence; try skip_upload_off; cbn [fst snd];
    intros u Hu; try discriminate Hu;
    rewrite ?count_snoc; cbn [is_check_status_code]; lia.
Qed.

(** X11.  With [skip_existing] off no file is reported as skipped: the only
    line printed is the one that names the repository.  A run that returns
    has had the status of every payload file's upload checked. *)
Theorem all_payloads_checked_when_not_skipping (dists : list string) :
  (forall pre line post,
      snd (run (upload W s dists)) = pre ++ EvPrint line :: post ->
      line = ("Uploading distributions to " ++ repository_url s)%string) /\
  (fst (run (upload W s dists)) = inr tt ->
     count is_check_status_code (snd (run (upload W s dists))) =
     length (resolved_payloads W dists)).
Proof.
  split.
  - intros pre line post Htr.
    assert (H : Every (prints_banner s) (snd (run (upload W s dists)))).
    { apply upload_every.
      all: try (intros pre' l Hev; discriminate Hev).
      - intros pre' ev Hev l Hp. destruct ev; discriminate.
      - intros pre' l Hev. injection Hev as <-. reflexivity.
      - intros ds h0 fname h Hfd Hh. apply upload_file_prints_nothing, Hh. }
    exact (H pre _ post Htr line eq_refl).
  - set (n := length (resolved_payloads W dists)).
    apply (upload_rule_at W s dists
             (fun res tr =>
                res = inr tt -> count is_check_status_code tr = n)).
    + intros e h0 _ H. discriminate H.
    + intros ds h0 Hfd.
      exists (fun rest h => count is_check_status_code h + length rest = n).
      assert (H0 : count is_check_status_code h0 = 0).
      { apply fs_log_count with (2 := find_dists_fs W dists _ _ Hfd).
        intros [] Hev; try discriminate Hev; reflexivity. }
      assert (Hn : n = length (payloads_of ds)).
      { subst n. unfold resolved_payloads. rewrite Hfd. reflexivity. }
      cbv zeta. split; [|split; [|split; [|split]]].
      * intros what _ H. discriminate H.
      * intros u what _ _ H. discriminate H.
      * intros u u' _ _. rewrite !count_snoc, H0.
        cbn [is_check_status_code]. lia.
      * intros fname rest h Hh.
        pose proof (upload_file_checks (signatures_of ds) fname h) as Hc.
        destruct (upload_file W s (signatures_of ds) fname h) as [[e|u] tr];
          cbn [fst snd] in *; [intros H; discriminate H|].
        specialize (Hc u eq_refl). cbn [length] in Hh. lia.
      * intros h Hh _. rewrite count_snoc.
        cbn [is_check_status_code length] in *. lia.
Qed.
End Check.

Lemma status_check_follows_upload_witness :
  exists pre' package,
    [EvExists whl; EvCheckRepositoryUrl;
     EvPrint (banner (settings true false)); EvCreateRepository;
     EvFromFilename whl None; EvPackageIsUploaded (pkg whl);
     EvUpload (pkg whl)] = pre' ++ [EvUpload package] /\
    repository_upload failing pre' package =
      Returns (answer 500 "Internal Server Error") /\
    is_redirect (answer 500 "Internal Server Error") = false /\
    Classifier.skip_upload (answer 500 "Internal Server Error")
      (skip_existing (settings true false)) package = false /\
    false = verbose (settings true false).
Proof.
  apply (status_check_follows_upload failing (settings true false) [whl]
           _ [] _ false).
  vm_compute. reflexivity.
Defined.

Lemma all_payloads_checked_when_not_skipping_witness :
  count is_check_status_code
    (snd (run (upload accepting (settings false true) ["dist/*"]))) = 2.
Proof.
  refine (proj2 (all_payloads_checked_when_not_skipping accepting
                   (settings false true) eq_refl ["dist/*"]) _).
  vm_compute. reflexivity.
Defined.

End Checking.

(* ===================================================================== *)
(** ** Grouping, again and after it *)
(* ===================================================================== *)

Module Grouping.
Import Orchestrator ResolverFacts Trace Sample.
Import Wheel.

Lemma filter_all {A : Type} (p : A -> bool) (l : list A) :
  Forall (fun x => p x = true) l -> List.filter p l = l.
Proof.
  induction 1 as [|x l Hx _ IH]; [reflexivity|].
  cbn [List.filter]. rewrite Hx, IH. reflexivity.
Qed.

Lemma filter_none {A : Type} (p : A -> bool) (l : list A) :
  Forall (fun x => p x = false) l -> List.filter p l = [].
Proof.
  induction 1 as [|x l Hx _ IH]; [reflexivity|].
  cbn [List.filter]. rewrite Hx, IH. reflexivity.
Qed.

Lemma filter_split_perm {A : Type} (p : A -> bool) (l : list A) :
  Permutation l (List.filter p l ++ List.filter (fun x => negb (p x)) l).
Proof.
  induction l as [|x l IH]; [constructor|].
  cbn [List.filter]. destruct (p x); cbn [negb app].
  - constructor. exact IH.
  - apply Permutation_cons_app. exact IH.
Qed.

Lemma whl_is_not_asc (f : string) :
  is_whl f = true -> is_asc f = false.
Proof.
  unfold is_whl, is_asc, Str.endswith. cbn [String.length].
  destruct (4 <=? String.length f)%nat; [|discriminate].
  cbn [andb]. intros H. apply String.eqb_eq in H. rewrite H. reflexivity.
Qed.

(** X5.  Grouping keeps every name, as often as it occurs, and grouping a
    grouped list changes nothing. *)
Theorem group_wheel_files_first_idempotent (files : list string) :
  Permutation files (group_wheel_files_first files) /\
  length (group_wheel_files_first files) = length files /\
  group_wheel_files_first (group_wheel_files_first files) =
    group_wheel_files_first files.
Proof.
  assert (Hperm : Permutation files (group_wheel_files_first files)).
  { rewrite WheelFacts.group_wheel_files_first_partition.
    apply filter_split_perm. }
  split; [exact Hperm|]. split; [symmetry; apply Permutation_length, Hperm|].
  rewrite !WheelFacts.group_wheel_files_first_partition.
  rewrite !List.filter_app.
  rewrite (filter_all is_whl (List.filter is_whl files))
    by apply WheelFacts.filter_whl_all.
  rewrite (filter_none is_whl (List.filter non_whl files))
    by apply WheelFacts.filter_non_whl_all.
  rewrite (filter_none non_whl (List.filter is_whl files)).
  2:{ eapply Forall_impl; [apply WheelFacts.filter_whl_all|].
      intros x Hx. unfold non_whl. cbn beta in Hx. rewrite Hx. reflexivity. }
  rewrite (filter_all non_whl (List.filter non_whl files)).
  2:{ eapply Forall_impl; [apply WheelFacts.filter_non_whl_all|].
      intros x Hx. unfold non_whl. cbn beta in Hx. rewrite Hx. reflexivity. }
  rewrite app_nil_r. reflexivity.
Qed.

Lemma payloads_of_grouped (l : list string) :
  payloads_of (group_wheel_files_first l) =
  List.filter is_whl l ++
  List.filter (fun f => negb (is_whl f) && negb (is_asc f)) l.
Proof.
  rewrite WheelFacts.group_wheel_files_first_partition.
  unfold payloads_of. rewrite List.filter_app. f_equal.
  - apply filter_all. apply List.Forall_forall. intros f Hf.
    apply filter_In in Hf as [_ Hf]. rewrite (whl_is_not_asc f Hf).
    reflexivity.
  - unfold non_whl. induction l as [|x l IH]; [reflexivity|].
    cbn [List.filter]. destruct (is_whl x); cbn [negb andb]; [exact IH|].
    cbn [List.filter]. destruct (is_asc x); cbn [negb]; [exact IH|].
    rewrite IH. reflexivity.
Qed.

(** X4.  When every input string resolves, the payload files of the run
    are the resolved names that end in [.whl], in resolution order,
    followed by the resolved names that end neither in [.whl] nor in
    [.asc], in resolution order. *)
Theorem wheels_are_uploaded_first (W : Collaborators)
    (dists : list string) :
  existsb (unmatched W) dists = false ->
  resolved_payloads W dists =
  List.filter (fun f => Str.endswith f ".whl")
    (flat_map (resolve_one W) dists) ++
  List.filter
    (fun f => negb (Str.endswith f ".whl") && negb (Str.endswith f ".asc"))
    (flat_map (resolve_one W) dists).
Proof.
  intros H. unfold resolved_payloads. rewrite (find_dists_ok W dists H).
  apply payloads_of_grouped.
Qed.

Lemma wheels_are_uploaded_first_witness :
  resolved_payloads accepting ["dist/*"] = [whl] ++ [sdist].
Proof.
  exact (wheels_are_uploaded_first accepting ["dist/*"] eq_refl).
Defined.

End Grouping.

(* ===================================================================== *)
(** ** What [find_dists] asks and what it returns *)
(* ===================================================================== *)

Module Queries.
Import Orchestrator LogFacts ResolverFacts Trace Sample.

Section Ask.
Variable W : Collaborators.

Lemma find_dists_loop_asks (dists uploads : list string) (h : history) :
  forallb (fun f => negb (unmatched W f)) dists = true ->
  snd (find_dists_loop W dists uploads h) = h ++ flat_map (queries W) dists.
Proof.
  revert uploads h. induction dists as [|fname rest IH]; intros uploads h.
  - intros _. cbn. rewrite app_nil_r. reflexivity.
  - cbn [forallb]. rewrite andb_true_iff. intros [Hf Hrest].
    rewrite find_dists_loop_cons. cbn [flat_map].
    unfold unmatched, queries in *.
    destruct (os_path_exists W fname).
    + rewrite IH by exact Hrest. rewrite <- app_assoc. reflexivity.
    + destruct (glob_glob W fname) as [|g gs]; [discriminate Hf|].
      rewrite IH by exact Hrest. rewrite <- !app_assoc. reflexivity.
Qed.

Lemma find_dists_loop_stops (pre post uploads : list string)
    (pattern : string) (h : history) :
  forallb (fun f => negb (unmatched W f)) pre = true ->
  unmatched W pattern = true ->
  snd (find_dists_loop W (pre ++ pattern :: post) uploads h) =
  h ++ flat_map (queries W) pre ++ [EvExists pattern; EvGlob pattern].
Proof.
  revert uploads h. induction pre as [|fname pre IH]; intros uploads h.
  - intros _ Hp. cbn [app flat_map]. rewrite find_dists_loop_cons.
    unfold unmatched in Hp. apply andb_true_iff in Hp as [Hex Hgl].
    destruct (os_path_exists W pattern); [discriminate Hex|].
    destruct (glob_glob W pattern); [|discriminate Hgl].
    cbn [snd]. rewrite <- app_assoc. reflexivity.
  - cbn [forallb app flat_map]. rewrite andb_true_iff. intros [Hf Hpre] Hp.
    rewrite find_dists_loop_cons. unfold unmatched, queries in *.
    destruct (os_path_exists W fname).
    + rewrite IH by assumption. rewrite <- !app_assoc. reflexivity.
    + destruct (glob_glob W fname); [discriminate Hf|].
      rewrite IH by assumption. rewrite <- !app_assoc. reflexivity.
Qed.

(** X6.  [find_dists] asks [os.path.exists] about each input string once,
    in input order, and [glob.glob] right after it for the strings that do
    not exist.  It stops at the first string that resolves to nothing: the
    strings after it are not looked at. *)
Theorem find_dists_queries (dists : list string) :
  (existsb (unmatched W) dists = false ->
     snd (run (find_dists W dists)) = flat_map (queries W) dists) /\
  (forall pre pattern post,
      dists = pre ++ pattern :: post ->
      existsb (unmatched W) pre = false ->
      unmatched W pattern = true ->
      snd (run (find_dists W dists)) =
      flat_map (queries W) pre ++ [EvExists pattern; EvGlob pattern]).
Proof.
  change (run (find_dists W dists)) with (find_dists W dists []).
  rewrite (proj1 (find_dists_log W dists)). split.
  - intros H. apply (find_dists_loop_asks dists [] []), all_matched, H.
  - intros pre pattern post -> Hpre Hp.
    apply (find_dists_loop_stops pre post [] pattern []);
      [apply all_matched, Hpre | exact Hp].
Qed.

Lemma resolve_one_nonempty (f : string) :
  unmatched W f = false -> (1 <= length (resolve_one W f))%nat.
Proof.
  unfold unmatched, resolve_one.
  destruct (os_path_exists W f); [intros _; cbn; lia|].
  destruct (glob_glob W f); [discriminate | intros _; cbn; lia].
Qed.

Lemma resolved_no_fewer (dists : list string) :
  existsb (unmatched W) dists = false ->
  (length dists <= length (flat_map (resolve_one W) dists))%nat.
Proof.
  induction dists as [|f dists IH]; [reflexivity|].
  cbn [existsb flat_map length]. intros H.
  apply orb_false_iff in H as [Hf H].
  rewrite List.length_app. pose proof (resolve_one_nonempty f Hf).
  specialize (IH H). lia.
Qed.

(** X12.  When [find_dists] returns, its result holds what the input
    strings resolve to, each name as often as it was resolved (nothing is
    dropped and duplicates are kept), and at least one name for every
    input string. *)
Theorem find_dists_result (dists out : list string) :
  fst (run (find_dists W dists)) = inr out ->
  Permutation (flat_map (resolve_one W) dists) out /\
  (length dists <= length out)%nat.
Proof.
  change (run (find_dists W dists)) with (find_dists W dists []).
  intros Hout.
  pose proof (find_dists_returns W dists out Hout) as Hm.
  rewrite (find_dists_ok W dists Hm) in Hout. injection Hout as <-.
  assert (Hperm : Permutation (flat_map (resolve_one W) dists)
                    (Wheel.group_wheel_files_first
                       (flat_map (resolve_one W) dists))).
  { rewrite WheelFacts.group_wheel_files_first_partition.
    apply Grouping.filter_split_perm. }
  split; [exact Hperm|].
  rewrite <- (Permutation_length Hperm). apply resolved_no_fewer, Hm.
Qed.
End Ask.

Lemma find_dists_queries_witness :
  snd (run (find_dists accepting [whl; "nothing*"; sdist])) =
  [EvExists whl] ++ [EvExists "nothing*"; EvGlob "nothing*"].
Proof.
  exact (proj2 (find_dists_queries accepting [whl; "nothing*"; sdist])
           [whl] "nothing*" [sdist] eq_refl eq_refl eq_refl).
Defined.

Lemma find_dists_result_witness :
  Permutation (flat_map (resolve_one accepting) [sdist; "dist/*"; sdist])
    [whl; sdist; sdist; "dist/pkg-1.0.tar.gz.asc"; sdist] /\
  (3 <= 5)%nat.
Proof.
  apply (find_dists_result accepting [sdist; "dist/*"; sdist]
           [whl; sdist; sdist; "dist/pkg-1.0.tar.gz.asc"; sdist]).
  vm_compute. reflexivity.
Defined.

End Queries.

(* ===================================================================== *)
(** ** The pre-flight query, with [skip_existing] on *)
(* ===================================================================== *)

Module Existing.
Import Orchestrator LogFacts BodyFacts ResolverFacts RunFacts Trace.
Import CommandFacts Sample.

Section On.
Variable W : Collaborators.
Variable s : Settings.
Hypothesis Hon : skip_existing s = true.

Lemma upload_file_queries (signatures : gmap string string)
    (fname : string) (h : history) :
  count is_package_is_uploaded (snd (upload_file W s signatures fname h)) <=
    count is_package_is_uploaded h + 1 /\
  count is_upload (snd (upload_file W s signatures fname h)) +
    count is_package_is_uploaded h <=
  count is_package_is_uploaded (snd (upload_file W s signatures fname h)) +
    count is_upload h /\
  (forall u, fst (upload_file W s signatures fname h) = inr u ->
     count is_package_is_uploaded (snd (upload_file W s signatures fname h)) =
     count is_package_is_uploaded h + 1).
Proof.
  body_cases; try congruence; cbn [fst snd]; rewrite ?count_snoc;
    cbn [is_upload is_package_is_uploaded];
    (split; [lia | split; [lia | intros u Hu; first [discriminate Hu | lia]]]).
Qed.

(** X14.  With [skip_existing] on, no package is uploaded that was not
    asked about first: the run makes at most one pre-flight query per
    payload file, no more uploads than queries, and exactly one query per
    payload file when it returns. *)
Theorem every_payload_queried_when_skipping (dists : list string) :
  count is_upload (snd (run (upload W s dists))) <=
    count is_package_is_uploaded (snd (run (upload W s dists))) /\
  count is_package_is_uploaded (snd (run (upload W s dists))) <=
    length (resolved_payloads W dists) /\
  (fst (run (upload W s dists)) = inr tt ->
     count is_package_is_uploaded (snd (run (upload W s dists))) =
     length (resolved_payloads W dists)).
Proof.
  set (n := length (resolved_payloads W dists)).
  set (P := fun (res : exn + unit) (tr : history) =>
              count is_upload tr <= count is_package_is_uploaded tr /\
              count is_package_is_uploaded tr <= n /\
              (res = inr tt -> count is_package_is_uploaded tr = n)).
  apply (upload_rule_at W s dists P).
  - intros e h0 Hfd. unfold P.
    rewrite !(fs_log_count _ h0) by
      (try exact (find_dists_fs W dists _ _ Hfd);
       intros [] Hev; try discriminate Hev; reflexivity).
    repeat split; try lia; discriminate.
  - intros ds h0 Hfd.
    exists (fun rest h =>
              count is_upload h <= count is_package_is_uploaded h /\
              count is_package_is_uploaded h + length rest = n).
    assert (Hn : n = length (payloads_of ds)).
    { subst n. unfold resolved_payloads. rewrite Hfd. reflexivity. }
    assert (H0 : count is_upload h0 = 0 /\
                 count is_package_is_uploaded h0 = 0).
    { split; apply fs_log_count
               with (2 := find_dists_fs W dists _ _ Hfd);
        intros [] Hev; try discriminate Hev; reflexivity. }
    destruct H0 as [Hu0 Hq0].
    cbv zeta. unfold P. split; [|split; [|split; [|split]]].
    + intros what _. rewrite !count_snoc, Hu0, Hq0.
      cbn [is_upload is_package_is_uploaded].
      repeat split; try lia; discriminate.
    + intros u what _ _. rewrite !count_snoc, Hu0, Hq0.
      cbn [is_upload is_package_is_uploaded].
      repeat split; try lia; discriminate.
    + intros u u' _ _. rewrite !count_snoc, Hu0, Hq0.
      cbn [is_upload is_package_is_uploaded]. lia.
    + intros fname rest h [Hle Hsum].
      pose proof (upload_file_queries (signatures_of ds) fname h)
        as (Hq & Hu & Hret).
      cbn [length] in Hsum.
      destruct (upload_file W s (signatures_of ds) fname h) as [[e|u] tr];
        cbn [fst snd] in *.
      * split; [lia | split; [lia | intros H; discriminate H]].
      * specialize (Hret u eq_refl). lia.
    + intros h [Hle Hsum]. cbn [length] in Hsum. rewrite !count_snoc.
      cbn [is_upload is_package_is_uploaded]. repeat split; lia.
Qed.

Hypothesis Hpresent :
  forall h package, package_is_uploaded W h package = Returns true.

Lemma upload_file_all_present (signatures : gmap string string)
    (fname : string) (h : history) :
  count is_upload (snd (upload_file W s signatures fname h)) =
    count is_upload h /\
  count is_signature_call (snd (upload_file W s signatures fname h)) =
    count is_signature_call h.
Proof.
  body_cases; try congruence;
    try match goal with
        | H : package_is_uploaded W _ _ = _ |- _ =>
            rewrite Hpresent in H; discriminate H
        end;
    cbn [snd]; rewrite ?count_snoc;
    cbn [is_upload is_signature_call is_add_gpg_signature is_sign orb];
    split; lia.
Qed.

(** X13.  With [skip_existing] on and a repository that reports every
    package as uploaded, a run uploads nothing, attaches no signature and
    signs nothing. *)
Theorem nothing_uploaded_when_all_present (dists : list string) :
  count is_upload (snd (run (upload W s dists))) = 0 /\
  count is_signature_call (snd (run (upload W s dists))) = 0.
Proof.
  apply (upload_rule_at W s dists
           (fun _ tr => count is_upload tr = 0 /\
                        count is_signature_call tr = 0)).
  - intros e h0 Hfd.
    split; apply fs_log_count with (2 := find_dists_fs W dists _ _ Hfd);
      intros [] Hev; try discriminate Hev; reflexivity.
  - intros ds h0 Hfd.
    exists (fun _ h => count is_upload h = 0 /\
                       count is_signature_call h = 0).
    assert (H0 : count is_upload h0 = 0 /\ count is_signature_call h0 = 0).
    { split; apply fs_log_count
               with (2 := find_dists_fs W dists _ _ Hfd);
        intros [] Hev; try discriminate Hev; reflexivity. }
    destruct H0 as [Hu0 Hs0].
    cbv zeta. split; [|split; [|split; [|split]]].
    + intros what _. rewrite !count_snoc, Hu0, Hs0. split; reflexivity.
    + intros u what _ _. rewrite !count_snoc, Hu0, Hs0. split; reflexivity.
    + intros u u' _ _. rewrite !count_snoc, Hu0, Hs0. split; reflexivity.
    + intros fname rest h [Hu Hs].
      pose proof (upload_file_all_present (signatures_of ds) fname h)
        as [Hu' Hs'].
      destruct (upload_file W s (signatures_of ds) fname h) as [[e|u] tr];
        cbn [snd] in *; split; lia.
    + intros h [Hu Hs]. rewrite !count_snoc, Hu, Hs. split; reflexivity.
Qed.
End On.

Lemma every_payload_queried_when_skipping_witness :
  count is_package_is_uploaded
    (snd (run (upload conflicting (settings true false) ["dist/*"]))) = 2.
Proof.
  refine (proj2 (proj2 (every_payload_queried_when_skipping conflicting
                          (settings true false) eq_refl ["dist/*"])) _).
  vm_compute. reflexivity.
Defined.

Lemma nothing_uploaded_when_all_present_witness :
  count is_upload
    (snd (run (upload holding (settings true true) ["dist/*"]))) = 0 /\
  count is_signature_call
    (snd (run (upload holding (settings true true) ["dist/*"]))) = 0.
Proof.
  exact (nothing_uploaded_when_all_present holding (settings true true)
           eq_refl (fun _ _ => eq_refl) ["dist/*"]).
Defined.

End Existing.
